(** * Custom hostnames client of cloudflare-go: model and verification

  Shallow embedding of [custom_hostname.go].  The file is glue code around
  three collaborators that live outside of it: the HTTP transport
  ([api.makeRequest]), [encoding/json] and [github.com/pkg/errors], plus
  [net/url] and [strconv] for the query string.  The collaborators whose
  behaviour the file fixes (net/url, strconv, pkg/errors) are modelled as
  executable definitions; the ones whose behaviour depends on the remote
  service or on the wire format (the transport, the JSON decoder) are
  parameters of the development. *)

From Stdlib Require Import ZArith String Ascii List DecimalString DecimalZ Lia.
From stdpp Require Import gmap strings list sorting.

Local Open Scope string_scope.
Local Open Scope Z_scope.

(** ** strconv *)

Module strconv.

(** [strconv.Itoa]: the base-10 rendering of an integer, with a leading
    minus sign for negative values and no leading zeros.  Go's [int] is a
    machine integer; here the argument ranges over all of [Z]. *)
Definition Itoa (i : Z) : string :=
  NilEmpty.string_of_int (Z.to_int i).

End strconv.

(** ** net/url: query strings *)

Module url.

(** [url.Values] is [map[string][]string]. *)
Abbreviation Values := (gmap string (list string)).

(** [v.Set(key, value)]: replaces any existing values of [key]. *)
Definition Values_Set (key value : string) (v : Values) : Values :=
  <[ key := [value] ]> v.

Definition byte_in (lo hi c : ascii) : bool :=
  (N_of_ascii lo <=? N_of_ascii c)%N && (N_of_ascii c <=? N_of_ascii hi)%N.

(** [shouldEscape(c, encodeQueryComponent)]: everything but the unreserved
    characters (alphanumerics and [-_.~]) is escaped. *)
Definition shouldEscape (c : ascii) : bool :=
  if byte_in "a" "z" c || byte_in "A" "Z" c || byte_in "0" "9" c then false
  else if Ascii.eqb c "-" || Ascii.eqb c "_" || Ascii.eqb c "." || Ascii.eqb c "~"
  then false
  else true.

(** [upperhex[n]] for [n < 16]. *)
Definition upperhex (n : N) : ascii :=
  if (n <? 10)%N then ascii_of_N (48 + n) else ascii_of_N (55 + n).

(** [escape(s, encodeQueryComponent)]: a space becomes [+], an escaped byte
    [c] becomes [%] followed by [upperhex[c>>4]] and [upperhex[c&15]]. *)
Fixpoint QueryEscape (s : string) : string :=
  match s with
  | EmptyString => EmptyString
  | String c rest =>
      if Ascii.eqb c " " then String "+" (QueryEscape rest)
      else if shouldEscape c then
        String "%" (String (upperhex (N.shiftr (N_of_ascii c) 4))
                   (String (upperhex (N.land (N_of_ascii c) 15))
                           (QueryEscape rest)))
      else String c (QueryEscape rest)
  end.

(** The keys of the map, sorted as [sort.Strings] does: by the binary
    order of strings. *)
Definition sorted_keys (v : Values) : list string :=
  merge_sort String.le (map_to_list v).*1.

(** One [key=value] pair per value of a key, already escaped. *)
Definition encode_key (v : Values) (k : string) : list string :=
  (fun x => QueryEscape k +:+ "=" +:+ QueryEscape x) <$> default [] (v !! k).

Fixpoint join_amp (pairs : list string) : string :=
  match pairs with
  | [] => ""
  | [p] => p
  | p :: rest => p +:+ "&" +:+ join_amp rest
  end.

(** [v.Encode()]: the pairs in the order of the sorted keys, separated by
    [&]; the empty map encodes to the empty string. *)
Definition Values_Encode (v : Values) : string :=
  join_amp (sorted_keys v ≫= encode_key v).

(** [ishex] and [unhex]. *)
Definition ishex (c : ascii) : bool :=
  byte_in "0" "9" c || byte_in "a" "f" c || byte_in "A" "F" c.

Definition unhex (c : ascii) : N :=
  if byte_in "0" "9" c then N_of_ascii c - 48
  else if byte_in "a" "f" c then N_of_ascii c - 97 + 10
  else if byte_in "A" "F" c then N_of_ascii c - 65 + 10
  else 0.

(** [QueryUnescape]: the inverse of [QueryEscape]; [None] stands for the
    [EscapeError] returned when a [%] is not followed by two hex digits. *)
Fixpoint QueryUnescape (s : string) : option string :=
  match s with
  | EmptyString => Some EmptyString
  | String "%" (String h (String l rest)) =>
      if ishex h && ishex l then
        String (ascii_of_N (N.lor (N.shiftl (unhex h) 4) (unhex l)))
          <$> QueryUnescape rest
      else None
  | String "%" _ => None
  | String "+" rest => String " " <$> QueryUnescape rest
  | String c rest => String c <$> QueryUnescape rest
  end.

(** [strings.Cut(s, sep)] for a separator of one byte. *)
Fixpoint Cut (sep : ascii) (s : string) : string * string * bool :=
  match s with
  | EmptyString => (EmptyString, EmptyString, false)
  | String c rest =>
      if Ascii.eqb c sep then (EmptyString, rest, true)
      else let '(before, after, found) := Cut sep rest in
           (String c before, after, found)
  end.

(** The pieces of [s] between the occurrences of [sep]: what the loop of
    [parseQuery] obtains by cutting at [&] until the query is used up
    (a trailing empty piece is dropped, as the loop stops on [""]). *)
Fixpoint pieces (sep : ascii) (s : string) (cur : string) : list string :=
  match s with
  | EmptyString => if String.eqb cur "" then [] else [cur]
  | String c rest =>
      if Ascii.eqb c sep then cur :: pieces sep rest ""
      else pieces sep rest (cur +:+ String c "")
  end.

Definition contains (c : ascii) (s : string) : bool :=
  existsb (Ascii.eqb c) (list_ascii_of_string s).

(** One round of the loop of [parseQuery] on the piece [key]: the map and
    whether the piece was malformed. *)
Definition parse_piece (m : Values) (piece : string) : Values * bool :=
  if contains ";" piece then (m, true)
  else if String.eqb piece "" then (m, false)
  else
    let '(key, value, _) := Cut "=" piece in
    match QueryUnescape key with
    | None => (m, true)
    | Some key =>
        match QueryUnescape value with
        | None => (m, true)
        | Some value => (<[ key := (default [] (m !! key) ++ [value])%list ]> m, false)
        end
    end.

(** [url.ParseQuery]: the values a server reads back from a query string,
    and whether some piece was malformed (the non-nil error of Go). *)
Definition ParseQuery (query : string) : Values * bool :=
  foldl (fun '(m, bad) piece =>
           let '(m', bad') := parse_piece m piece in (m', bad || bad'))
        (∅, false) (pieces "&" query "").

End url.

(** ** github.com/pkg/errors *)

Module errors.

(** The non-nil error values.  [fundamental] is what [errors.New] builds,
    [withMessage] what [errors.Wrap] builds (the recorded stack trace is
    left out), [foreign] an error built by another package (the transport,
    [encoding/json]). *)
Inductive value : Type :=
| fundamental (msg : string)
| withMessage (cause : value) (msg : string)
| foreign (msg : string).

(** [err.Error()] *)
Fixpoint Error (e : value) : string :=
  match e with
  | fundamental msg => msg
  | withMessage cause msg => msg +:+ ": " +:+ Error cause
  | foreign msg => msg
  end.

End errors.

(** Go's [error] interface: [None] is [nil]. *)
Abbreviation error := (option errors.value).

(** [errors.New(message)] *)
Definition errors_New (message : string) : error :=
Some (errors.fundamental message).

(** [errors.Wrap(err, message)]; wrapping [nil] gives [nil]. *)
Definition errors_Wrap (err : error) (message : string) : error :=
match err with
| None => None
| Some e => Some (errors.withMessage e message)
end.

(** ** Data model *)

(** [CustomHostnameSSL]: the SSL section of a custom hostname. *)
Record CustomHostnameSSL : Type := {
Status : string;
Method : string;
Type' : string;
CNAMETarget : string;
CNAMEName : string
}.

(** [CustomHostnameSSL{}] *)
Definition CustomHostnameSSL_zero : CustomHostnameSSL :=
{| Status := ""; Method := ""; Type' := ""; CNAMETarget := ""; CNAMEName := "" |}.

(** Modelled from the spec: the [ResultInfo] struct is declared in another
  file of the package; the spec describes it as the pagination envelope
  with the page number, the per-page count and the total count. *)
Record ResultInfo : Type := {
Page : Z;
PerPage : Z;
Total : Z
}.

(** [ResultInfo{}] *)
Definition ResultInfo_zero : ResultInfo :=
{| Page := 0; PerPage := 0; Total := 0 |}.

Section Model.

(** [any] stands for the values of [interface{}] held in [CustomMetadata],
    [Response] for the response metadata struct of the package that the
    response types embed; both are opaque to this file. *)
Context {any Response : Type}.

(** [CustomHostname]: a custom hostname in a zone; [CustomMetadata] is
    [map[string]interface{}]. *)
Record CustomHostname : Type := {
  ID : string;
  Hostname : string;
  CustomOriginServer : string;
  SSL : CustomHostnameSSL;
  CustomMetadata : gmap string any
}.

(** [CustomHostname{}] *)
Definition CustomHostname_zero : CustomHostname :=
  {| ID := ""; Hostname := ""; CustomOriginServer := "";
     SSL := CustomHostnameSSL_zero; CustomMetadata := ∅ |}.

(** [CustomHostnameResponse]: [Result] and the embedded [Response]. *)
Record CustomHostnameResponse : Type := {
  Result : CustomHostname;
  Result_Response : Response
}.

(** [CustomHostnameListResponse]: [Result], the embedded [Response] and
    the embedded [ResultInfo]. *)
Record CustomHostnameListResponse : Type := {
  ListResult : list CustomHostname;
  ListResult_Response : Response;
  ListResult_ResultInfo : ResultInfo
}.

(** What the rest of package [cloudflare] declares and this file uses: the
    two messages that give an error its context, and the zero value of
    [Response]. *)
Class Package : Type := {
  errMakeRequestError : string;
  errUnmarshalError : string;
  Response_zero : Response
}.

(** [json.Unmarshal(data, &target)] at a target of type [T]: the value of
    [target] after the call, given its value before, and the error.  On
    an error the target may have been filled in part. *)
Class Unmarshaler (T : Type) : Type :=
  json_Unmarshal : list Byte.byte -> T -> T * error.

(** A request as the transport receives it: the method, the URI and the
    parameters to send as the body ([nil] is [None]). *)
Record Request : Type := {
  method : string;
  uri : string;
  params : option CustomHostname
}.

(** The client: what the transport answers to a request, in a state
    [World] of the remote service and of the connection. *)
Record API (World : Type) : Type := {
  transport : Request -> World -> (list Byte.byte * error) * World
}.

(** What a call can change: the world, and the requests sent so far. *)
Record State (World : Type) : Type := {
  world : World;
  sent : list Request
}.

End Model.

Arguments CustomHostname : clear implicits.
Arguments CustomHostnameResponse : clear implicits.
Arguments CustomHostnameListResponse : clear implicits.
Arguments Package : clear implicits.
Arguments Request : clear implicits.
Arguments API : clear implicits.
Arguments State : clear implicits.
Arguments transport {any World} _ _ _.
Arguments world {any World} _.
Arguments sent {any World} _.
Arguments Build_State {any World} _ _.
Arguments Build_API {any World} _.

(** ** The monad of calls: state passing over [State] *)

Definition M (any World A : Type) : Type :=
State any World -> A * State any World.

#[global] Instance M_ret {any World} : MRet (M any World) :=
fun A (a : A) s => (a, s).

#[global] Instance M_bind {any World} : MBind (M any World) :=
fun A B (k : A -> M any World B) (c : M any World A) s =>
  let '(a, s') := c s in k a s'.

(** ** The operations of [custom_hostname.go] *)

Section Client.

Context {any Response World : Type}.
Context `{!Package Response}.
Context `{!Unmarshaler (option (CustomHostnameResponse any Response))}.
Context `{!Unmarshaler (CustomHostnameResponse any Response)}.
Context `{!Unmarshaler (CustomHostnameListResponse any Response)}.

(** The receiver [api *API] of every method. *)
Variable api : API any World.

(** Modelled from the spec: [api.makeRequest] is declared in another file
    of the package.  The spec gives its contract: it takes the method, the
    path and an optional body and returns raw bytes or an error; nothing
    else is assumed.  A call hands the request to the transport and is
    recorded in [sent]. *)
Definition makeRequest (method uri : string)
    (params : option (CustomHostname any))
  : M any World (list Byte.byte * error) :=
  fun s =>
    let req := {| method := method; uri := uri; params := params |} in
    let '(answer, w) := transport api req (world s) in
    (answer, {| world := w; sent := (sent s ++ [req])%list |}).

(** [var response CustomHostnameResponse] *)
Definition CustomHostnameResponse_zero : CustomHostnameResponse any Response :=
  {| Result := CustomHostname_zero; Result_Response := Response_zero |}.

(** [var customHostnameListResponse CustomHostnameListResponse]; a [nil]
    slice and an empty one are both the empty list. *)
Definition CustomHostnameListResponse_zero
  : CustomHostnameListResponse any Response :=
  {| ListResult := []; ListResult_Response := Response_zero;
     ListResult_ResultInfo := ResultInfo_zero |}.

(** [UpdateCustomHostnameSSL]; the receiver is not used. *)
#[using="api"]
Definition UpdateCustomHostnameSSL (zoneID customHostnameID : string)
    (ssl : CustomHostnameSSL)
  : M any World (CustomHostname any * error) :=
  mret (CustomHostname_zero, errors_New "Not implemented").

(** [DeleteCustomHostname] *)
Definition DeleteCustomHostname (zoneID customHostnameID : string)
  : M any World error :=
  let uri := "/zones/" +:+ zoneID +:+ "/custom_hostnames/" +:+ customHostnameID in
  '(res, err) ← makeRequest "DELETE" uri None ;
  match err with
  | Some _ => mret (errors_Wrap err errMakeRequestError)
  | None =>
      let '(response, err) :=
        json_Unmarshal res (None : option (CustomHostnameResponse any Response)) in
      match err with
      | Some _ => mret (errors_Wrap err errUnmarshalError)
      | None => mret None
      end
  end.

(** [CreateCustomHostname]; the result is a pointer, [None] is [nil]. *)
Definition CreateCustomHostname (zoneID : string) (ch : CustomHostname any)
  : M any World (option (CustomHostnameResponse any Response) * error) :=
  let uri := "/zones/" +:+ zoneID +:+ "/custom_hostnames" in
  '(res, err) ← makeRequest "POST" uri (Some ch) ;
  match err with
  | Some _ => mret (None, errors_Wrap err errMakeRequestError)
  | None =>
      let '(response, err) :=
        json_Unmarshal res (None : option (CustomHostnameResponse any Response)) in
      match err with
      | Some _ => mret (None, errors_Wrap err errUnmarshalError)
      | None => mret (response, None)
      end
  end.

(** [FilterCustomHostnames] *)
Definition FilterCustomHostnames (zoneID : string) (page : Z)
    (filter : CustomHostname any)
  : M any World (list (CustomHostname any) * ResultInfo * error) :=
  let v : url.Values := ∅ in
  let v := url.Values_Set "per_page" "50" v in
  let v := url.Values_Set "page" (strconv.Itoa page) v in
  let v := if negb (String.eqb (Hostname filter) "")
           then url.Values_Set "hostname" (Hostname filter) v
           else v in
  let query := "?" +:+ url.Values_Encode v in
  let uri := "/zones/" +:+ zoneID +:+ "/custom_hostnames" +:+ query in
  '(res, err) ← makeRequest "GET" uri None ;
  match err with
  | Some _ => mret ([], ResultInfo_zero, errors_Wrap err errMakeRequestError)
  | None =>
      let '(customHostnameListResponse, err) :=
        json_Unmarshal res CustomHostnameListResponse_zero in
      match err with
      | Some _ => mret ([], ResultInfo_zero, errors_Wrap err errMakeRequestError)
      | None =>
          mret (ListResult customHostnameListResponse,
               ListResult_ResultInfo customHostnameListResponse, None)
      end
  end.

(** [ListCustomHostnames] *)
Definition ListCustomHostnames (zoneID : string) (page : Z)
  : M any World (list (CustomHostname any) * ResultInfo * error) :=
  FilterCustomHostnames zoneID page CustomHostname_zero.

(** The method [CustomHostname] of the client (the record of the data
    model has taken the name). *)
Definition GetCustomHostname (zoneID customHostnameID : string)
  : M any World (CustomHostname any * error) :=
  let uri := "/zones/" +:+ zoneID +:+ "/custom_hostnames/" +:+ customHostnameID in
  '(res, err) ← makeRequest "GET" uri None ;
  match err with
  | Some _ => mret (CustomHostname_zero, errors_Wrap err errMakeRequestError)
  | None =>
      let '(response, err) := json_Unmarshal res CustomHostnameResponse_zero in
      match err with
      | Some _ => mret (CustomHostname_zero, errors_Wrap err errUnmarshalError)
      | None => mret (Result response, None)
      end
  end.

(** The [for _, ch := range customHostnames] loop of
    [CustomHostnameIDByName]: [Some id] when the body returns [id], [None]
    when the loop runs to its end. *)
Fixpoint range_customHostnames (hostname : string)
    (customHostnames : list (CustomHostname any)) : option string :=
  match customHostnames with
  | [] => None
  | ch :: rest =>
      if String.eqb (Hostname ch) hostname then Some (ID ch)
      else range_customHostnames hostname rest
  end.

(** [CustomHostnameIDByName] *)
Definition CustomHostnameIDByName (zoneID hostname : string)
  : M any World (string * error) :=
  '(customHostnames, _, err) ←
    FilterCustomHostnames zoneID 1
      {| ID := ""; Hostname := hostname; CustomOriginServer := "";
         SSL := CustomHostnameSSL_zero; CustomMetadata := ∅ |} ;
  match err with
  | Some _ => mret ("", errors_Wrap err "failed to fetch CustomHostnameIDByName")
  | None =>
      match range_customHostnames hostname customHostnames with
      | Some id => mret (id, None)
      | None => mret ("", errors_New "the custom hostname could not be found")
      end
  end.

End Client.

(** ** The vocabulary of the specification *)

Section Vocabulary.

Context {Response : Type} `{!Package Response}.

(** A [TransportError]: the failure [cause] of the transport, in the
    context of [makeRequest]. *)
Definition TransportError (cause : errors.value) : error :=
  Some (errors.withMessage cause errMakeRequestError).

(** A [DecodeError]: the failure [cause] of the decoder, in the context
    of unmarshalling. *)
Definition DecodeError (cause : errors.value) : error :=
  Some (errors.withMessage cause errUnmarshalError).

End Vocabulary.

(** The fixed error of [UpdateCustomHostnameSSL]: a new error, not [nil],
    with its message and no cause. *)
Definition NotImplemented : error :=
  Some (errors.fundamental "Not implemented").

(** The error of a lookup by name that finds nothing: a new error, not
    [nil], with its message and no cause. *)
Definition NotFound : error :=
  Some (errors.fundamental "the custom hostname could not be found").

(** The filter [CustomHostname{Hostname: hostname}]. *)
Definition by_hostname {any : Type} (hostname : string) : CustomHostname any :=
{| ID := ""; Hostname := hostname; CustomOriginServer := "";
   SSL := CustomHostnameSSL_zero; CustomMetadata := ∅ |}.

(** The request a method sends with no body. *)
Definition bodyless {any : Type} (method uri : string) : Request any :=
{| method := method; uri := uri; params := None |}.

(** The query of the list operation as the table of external interfaces
  writes it: [per_page=50&page=N[&hostname=H]]. *)
Definition table_query (N : Z) (H : string) : string :=
"per_page=50&page=" +:+ strconv.Itoa N +:+
(if String.eqb H "" then "" else "&hostname=" +:+ H).

(** The query [FilterCustomHostnames] sends: the parameters in the order of
  their names, the hostname escaped. *)
Definition sorted_query (N : Z) (H : string) : string :=
(if String.eqb H "" then "" else "hostname=" +:+ url.QueryEscape H +:+ "&") +:+
"page=" +:+ strconv.Itoa N +:+ "&per_page=50".

(** The parameters a server reads back from that query. *)
Definition read_back (N : Z) (H : string) : url.Values :=
let m : url.Values := if String.eqb H "" then ∅ else <[ "hostname" := [H] ]> ∅ in
<[ "per_page" := ["50"] ]> (<[ "page" := [strconv.Itoa N] ]> m).

(** The request of the list operation. *)
Definition list_request {any : Type} (zoneID : string) (page : Z) (H : string)
: Request any :=
bodyless "GET"
  ("/zones/" +:+ zoneID +:+ "/custom_hostnames?" +:+ sorted_query page H).

(** The escaped form of one byte. *)
Definition escape_byte (c : ascii) : string := url.QueryEscape (String c "").

(** The bytes that structure a query string. *)
Definition separator (c : ascii) : bool :=
Ascii.eqb c "&" || Ascii.eqb c "=" || Ascii.eqb c ";".

(** ** A concrete client, to run the operations *)

Module Demo.

(** Metadata values are strings, the response metadata is the success
    flag. *)
Abbreviation any := string.
Abbreviation Response := bool.

#[global] Instance package : Package Response := {|
  errMakeRequestError := "Error from makeRequest";
  errUnmarshalError := "Error unmarshalling JSON";
  Response_zero := false
|}.

(** The world is the script of the answers still to come; with none left
    the connection fails. *)
Abbreviation World := (list (list Byte.byte * error)).

Definition refused : error := Some (errors.foreign "connection refused").

Definition api : API any World :=
  {| transport := fun _ w =>
       match w with
       | [] => (([], refused), [])
       | answer :: w' => (answer, w')
       end |}.

Definition start (script : World) : State any World :=
  {| world := script; sent := [] |}.


Definition host (id hostname : string) : CustomHostname any :=
  {| ID := id; Hostname := hostname; CustomOriginServer := "";
     SSL := CustomHostnameSSL_zero; CustomMetadata := ∅ |}.

(** JSON text written with ['] for the double quote. *)
Fixpoint json (text : string) : string :=
  match text with
  | EmptyString => EmptyString
  | String c rest =>
      String (if Ascii.eqb c "'" then ascii_of_nat 34 else c) (json rest)
  end.

(** The payloads the demo decoders know. *)
Definition page_with_two_matches : string :=
  json
  "{'result':[{'id':'id-1','hostname':'b.example.com'},{'id':'id-2','hostname':'a.example.com'},{'id':'id-3','hostname':'a.example.com'}],'result_info':{'page':1,'per_page':50,'total_count':3},'success':true}".

Definition page_with_near_matches : string :=
  json
  "{'result':[{'id':'id-7','hostname':'A.example.com'},{'id':'id-8','hostname':'a.example.com.evil'},{'id':'id-9','hostname':'a.example'}],'result_info':{'page':1,'per_page':50,'total_count':53},'success':true}".

Definition page_two : string :=
  json
  "{'result':[{'id':'id-51','hostname':'a.example.com'}],'result_info':{'page':2,'per_page':50,'total_count':53},'success':true}".

Definition page_with_bad_info : string :=
  json
  "{'result':[{'id':'id-1','hostname':'b.example.com'}],'result_info':'oops'}".

Definition created : string :=
  json
  "{'result':{'id':'abc123','hostname':'a.example.com'},'success':true}".

Definition failure_envelope : string :=
  json
  "{'success':false,'errors':[{'code':1436,'message':'not found'}]}".

Definition not_json : string := "not json".

(** A successful answer of the transport with the given body. *)
Definition ok (payload : string) : list Byte.byte * error :=
  (list_byte_of_string payload, None).

Definition syntax_error : errors.value :=
  errors.foreign "invalid character 'o' in literal null (expecting 'u')".

Definition type_error : errors.value :=
  errors.foreign "json: cannot unmarshal string into Go struct field CustomHostnameListResponse.result_info of type cloudflare.ResultInfo".

(** Decoder at [*CustomHostnameResponse]. *)
#[global] Instance unmarshal_pointer
  : Unmarshaler (option (CustomHostnameResponse any Response)) :=
  fun data target =>
    let text := string_of_list_byte data in
    if String.eqb text created then
      (Some {| Result := host "abc123" "a.example.com"; Result_Response := true |},
       None)
    else if String.eqb text failure_envelope then
      (Some {| Result := CustomHostname_zero; Result_Response := false |}, None)
    else if String.eqb text "null" then (None, None)
    else (target, Some syntax_error).

(** Decoder at [CustomHostnameResponse]. *)
#[global] Instance unmarshal_response
  : Unmarshaler (CustomHostnameResponse any Response) :=
  fun data target =>
    let text := string_of_list_byte data in
    if String.eqb text created then
      ({| Result := host "abc123" "a.example.com"; Result_Response := true |},
       None)
    else (target, Some syntax_error).

(** What the payloads of the list decode to. *)
Definition two_matches : list (CustomHostname any) :=
  [host "id-1" "b.example.com"; host "id-2" "a.example.com";
   host "id-3" "a.example.com"].

Definition near_matches : list (CustomHostname any) :=
  [host "id-7" "A.example.com"; host "id-8" "a.example.com.evil";
   host "id-9" "a.example"].

Definition info (page total : Z) : ResultInfo :=
  {| Page := page; PerPage := 50; Total := total |}.

(** Decoder at [CustomHostnameListResponse]; on [page_with_bad_info] it
    fills [Result] before it fails on [result_info]. *)
#[global] Instance unmarshal_list
  : Unmarshaler (CustomHostnameListResponse any Response) :=
  fun data target =>
    let text := string_of_list_byte data in
    if String.eqb text page_with_two_matches then
      ({| ListResult := two_matches; ListResult_Response := true;
          ListResult_ResultInfo := info 1 3 |}, None)
    else if String.eqb text page_with_near_matches then
      ({| ListResult := near_matches; ListResult_Response := true;
          ListResult_ResultInfo := info 1 53 |}, None)
    else if String.eqb text page_two then
      ({| ListResult := [host "id-51" "a.example.com"];
          ListResult_Response := true;
          ListResult_ResultInfo := info 2 53 |}, None)
    else if String.eqb text page_with_bad_info then
      ({| ListResult := [host "id-1" "b.example.com"];
          ListResult_Response := ListResult_Response target;
          ListResult_ResultInfo := ListResult_ResultInfo target |},
       Some type_error)
    else (target, Some syntax_error).

(** The state after one request was answered from a script. *)
Definition after (request : Request any) (rest : World) : State any World :=
  {| world := rest; sent := [request] |}.

End Demo.

(** ** encoding/json: what is JSON, and decoding at a pointer to a struct *)

Module json.

(** The scanner of [encoding/json] (scanner.go): one step function per
    state, a stack of the enclosing objects and arrays, and [endTop] once
    the top-level value is complete.  A step answers [None] for a syntax
    error. *)
Inductive parseState : Type :=
| parseObjectKey
| parseObjectValue
| parseArrayValue.

Inductive state : Type :=
| stateBeginValue | stateBeginValueOrEmpty | stateBeginStringOrEmpty
| stateBeginString | stateEndValue | stateEndTop
| stateInString | stateInStringEsc | stateInStringEscU | stateInStringEscU1
| stateInStringEscU12 | stateInStringEscU123
| stateNeg | state1 | state0 | stateDot | stateDot0 | stateE | stateESign
| stateE0
| stateT | stateTr | stateTru | stateF | stateFa | stateFal | stateFals
| stateN | stateNu | stateNul.

(** The top of the stack is the head of [stack]. *)
Record scanner : Type := {
  step : state;
  stack : list parseState;
  endTop : bool
}.

Definition goto (next : state) (s : scanner) : option scanner :=
  Some {| step := next; stack := stack s; endTop := endTop s |}.

Definition isSpace (c : ascii) : bool :=
  Ascii.eqb c " " || Ascii.eqb c "009" || Ascii.eqb c "013" || Ascii.eqb c "010".

Definition isDigit (c : ascii) : bool := url.byte_in "0" "9" c.

Definition maxNestingDepth : Z := 10000.

Definition pushParseState (newParseState : parseState) (next : state)
    (s : scanner) : option scanner :=
  if Z.of_nat (length (stack s)) <? maxNestingDepth
  then Some {| step := next; stack := newParseState :: stack s; endTop := endTop s |}
  else None.

Definition popParseState (s : scanner) : option scanner :=
  match stack s with
  | [] => None
  | [_] => Some {| step := stateEndTop; stack := []; endTop := true |}
  | _ :: rest => Some {| step := stateEndValue; stack := rest; endTop := endTop s |}
  end.

(** [stateEndTop]: only space may follow the top-level value. *)
Definition do_stateEndTop (s : scanner) (c : ascii) : option scanner :=
  if isSpace c then Some s else None.

(** [stateEndValue]: after a value, what the enclosing object or array
    allows. *)
Definition do_stateEndValue (s : scanner) (c : ascii) : option scanner :=
  match stack s with
  | [] => do_stateEndTop {| step := stateEndTop; stack := []; endTop := true |} c
  | ps :: rest =>
      if isSpace c then goto stateEndValue s
      else
        match ps with
        | parseObjectKey =>
            if Ascii.eqb c ":" then
              Some {| step := stateBeginValue; stack := parseObjectValue :: rest;
                      endTop := endTop s |}
            else None
        | parseObjectValue =>
            if Ascii.eqb c "," then
              Some {| step := stateBeginString; stack := parseObjectKey :: rest;
                      endTop := endTop s |}
            else if Ascii.eqb c "}" then popParseState s
            else None
        | parseArrayValue =>
            if Ascii.eqb c "," then goto stateBeginValue s
            else if Ascii.eqb c "]" then popParseState s
            else None
        end
  end.

Definition do_state0 (s : scanner) (c : ascii) : option scanner :=
  if Ascii.eqb c "." then goto stateDot s
  else if Ascii.eqb c "e" || Ascii.eqb c "E" then goto stateE s
  else do_stateEndValue s c.

Definition do_state1 (s : scanner) (c : ascii) : option scanner :=
  if isDigit c then goto state1 s else do_state0 s c.

Definition do_stateDot0 (s : scanner) (c : ascii) : option scanner :=
  if isDigit c then Some s
  else if Ascii.eqb c "e" || Ascii.eqb c "E" then goto stateE s
  else do_stateEndValue s c.

Definition do_stateESign (s : scanner) (c : ascii) : option scanner :=
  if isDigit c then goto stateE0 s else None.

Definition do_stateE (s : scanner) (c : ascii) : option scanner :=
  if Ascii.eqb c "+" || Ascii.eqb c "-" then goto stateESign s
  else do_stateESign s c.

Definition do_stateE0 (s : scanner) (c : ascii) : option scanner :=
  if isDigit c then Some s else do_stateEndValue s c.

Definition do_stateBeginString (s : scanner) (c : ascii) : option scanner :=
  if isSpace c then Some s
  else if Ascii.eqb c (ascii_of_nat 34) then goto stateInString s
  else None.

Definition do_stateBeginValue (s : scanner) (c : ascii) : option scanner :=
  if isSpace c then Some s
  else if Ascii.eqb c "{" then pushParseState parseObjectKey stateBeginStringOrEmpty s
  else if Ascii.eqb c "[" then pushParseState parseArrayValue stateBeginValueOrEmpty s
  else if Ascii.eqb c (ascii_of_nat 34) then goto stateInString s
  else if Ascii.eqb c "-" then goto stateNeg s
  else if Ascii.eqb c "0" then goto state0 s
  else if Ascii.eqb c "t" then goto stateT s
  else if Ascii.eqb c "f" then goto stateF s
  else if Ascii.eqb c "n" then goto stateN s
  else if url.byte_in "1" "9" c then goto state1 s
  else None.

Definition do_stateBeginValueOrEmpty (s : scanner) (c : ascii) : option scanner :=
  if isSpace c then Some s
  else if Ascii.eqb c "]" then do_stateEndValue s c
  else do_stateBeginValue s c.

Definition do_stateBeginStringOrEmpty (s : scanner) (c : ascii) : option scanner :=
  if isSpace c then Some s
  else if Ascii.eqb c "}" then
    do_stateEndValue
      {| step := step s; stack := parseObjectValue :: tail (stack s);
         endTop := endTop s |} c
  else do_stateBeginString s c.

Definition do_stateInString (s : scanner) (c : ascii) : option scanner :=
  if Ascii.eqb c (ascii_of_nat 34) then goto stateEndValue s
  else if Ascii.eqb c "\" then goto stateInStringEsc s
  else if (N_of_ascii c <? 32)%N then None
  else Some s.

Definition do_stateInStringEsc (s : scanner) (c : ascii) : option scanner :=
  if Ascii.eqb c "b" || Ascii.eqb c "f" || Ascii.eqb c "n" || Ascii.eqb c "r"
     || Ascii.eqb c "t" || Ascii.eqb c "\" || Ascii.eqb c "/"
     || Ascii.eqb c (ascii_of_nat 34)
  then goto stateInString s
  else if Ascii.eqb c "u" then goto stateInStringEscU s
  else None.

(** A state that accepts one byte only. *)
Definition expect (ok : bool) (next : state) (s : scanner) : option scanner :=
  if ok then goto next s else None.

(** [s.step(s, c)] *)
Definition scan_step (s : scanner) (c : ascii) : option scanner :=
  match step s with
  | stateBeginValue => do_stateBeginValue s c
  | stateBeginValueOrEmpty => do_stateBeginValueOrEmpty s c
  | stateBeginStringOrEmpty => do_stateBeginStringOrEmpty s c
  | stateBeginString => do_stateBeginString s c
  | stateEndValue => do_stateEndValue s c
  | stateEndTop => do_stateEndTop s c
  | stateInString => do_stateInString s c
  | stateInStringEsc => do_stateInStringEsc s c
  | stateInStringEscU => expect (url.ishex c) stateInStringEscU1 s
  | stateInStringEscU1 => expect (url.ishex c) stateInStringEscU12 s
  | stateInStringEscU12 => expect (url.ishex c) stateInStringEscU123 s
  | stateInStringEscU123 => expect (url.ishex c) stateInString s
  | stateNeg =>
      if Ascii.eqb c "0" then goto state0 s
      else expect (url.byte_in "1" "9" c) state1 s
  | state1 => do_state1 s c
  | state0 => do_state0 s c
  | stateDot => expect (isDigit c) stateDot0 s
  | stateDot0 => do_stateDot0 s c
  | stateE => do_stateE s c
  | stateESign => do_stateESign s c
  | stateE0 => do_stateE0 s c
  | stateT => expect (Ascii.eqb c "r") stateTr s
  | stateTr => expect (Ascii.eqb c "u") stateTru s
  | stateTru => expect (Ascii.eqb c "e") stateEndValue s
  | stateF => expect (Ascii.eqb c "a") stateFa s
  | stateFa => expect (Ascii.eqb c "l") stateFal s
  | stateFal => expect (Ascii.eqb c "s") stateFals s
  | stateFals => expect (Ascii.eqb c "e") stateEndValue s
  | stateN => expect (Ascii.eqb c "u") stateNu s
  | stateNu => expect (Ascii.eqb c "l") stateNul s
  | stateNul => expect (Ascii.eqb c "l") stateEndValue s
  end.

(** [scan.reset()] *)
Definition reset : scanner :=
  {| step := stateBeginValue; stack := []; endTop := false |}.

(** The loop of [checkValid] over the bytes. *)
Fixpoint scan_all (s : scanner) (data : string) : option scanner :=
  match data with
  | EmptyString => Some s
  | String c rest =>
      match scan_step s c with
      | None => None
      | Some s' => scan_all s' rest
      end
  end.

(** [scan.eof()]: the input may end when the top-level value is complete,
    or is completed by one more space. *)
Definition eof (s : scanner) : bool :=
  if endTop s then true
  else match scan_step s " " with
       | Some s' => endTop s'
       | None => false
       end.

(** [json.Valid(data)]: [checkValid] reports no error. *)
Definition Valid (data : list Byte.byte) : bool :=
  match scan_all reset (string_of_list_byte data) with
  | Some s => eof s
  | None => false
  end.

(** The kinds of JSON values, as [UnmarshalTypeError] names them. *)
Inductive kind : Type := Null | Object | Array | String_ | Number | Bool.

Definition kind_name (k : kind) : string :=
  match k with
  | Null => "null"
  | Object => "object"
  | Array => "array"
  | String_ => "string"
  | Number => "number"
  | Bool => "bool"
  end.

(** The kind of the top-level value of valid JSON, read off its first
    byte after the leading space. *)
Fixpoint kind_of (data : string) : option kind :=
  match data with
  | EmptyString => None
  | String c rest =>
      if isSpace c then kind_of rest
      else if Ascii.eqb c "{" then Some Object
      else if Ascii.eqb c "[" then Some Array
      else if Ascii.eqb c (ascii_of_nat 34) then Some String_
      else if Ascii.eqb c "t" || Ascii.eqb c "f" then Some Bool
      else if Ascii.eqb c "n" then Some Null
      else if Ascii.eqb c "-" || isDigit c then Some Number
      else None
  end.

(** The [UnmarshalTypeError] for a top-level value of the wrong kind. *)
Definition UnmarshalTypeError (value type : string) : errors.value :=
  errors.foreign
    ("json: cannot unmarshal " +:+ value +:+ " into Go value of type " +:+ type).

End json.

(** [json.Unmarshal(data, &target)] at a target [*T] for a struct [T] with
    no unmarshalling method of its own.  Invalid bytes are a syntax error
    and leave the target alone; [null] sets the pointer to [nil]; an
    object is decoded field by field into the struct the pointer holds,
    a fresh one for a [nil] pointer; a value of any other kind allocates
    the struct and is a type error.  The decoding of the fields of an
    object ([object]) and the text of a syntax error ([syntax_error]) are
    left open. *)
Definition Unmarshal_pointer {T : Type} (zero : T) (type : string)
    (object : list Byte.byte -> T -> T * error)
    (syntax_error : list Byte.byte -> errors.value)
  : Unmarshaler (option T) :=
  fun data target =>
    if negb (json.Valid data) then (target, Some (syntax_error data))
    else
      match json.kind_of (string_of_list_byte data) with
      | None => (target, Some (syntax_error data))
      | Some json.Null => (None, None)
      | Some json.Object =>
          let '(v, err) := object data (default zero target) in (Some v, err)
      | Some k =>
          (Some (default zero target),
           Some (json.UnmarshalTypeError (json.kind_name k) type))
      end.

(** [json.Unmarshal] at [*CustomHostnameResponse], the target of
    [DeleteCustomHostname] and [CreateCustomHostname]; the type is the one
    of package [cloudflare]. *)
Definition Unmarshal_CustomHostnameResponse {any Response : Type}
    `{!Package Response}
    (object : list Byte.byte -> CustomHostnameResponse any Response ->
              CustomHostnameResponse any Response * error)
    (syntax_error : list Byte.byte -> errors.value)
  : Unmarshaler (option (CustomHostnameResponse any Response)) :=
  Unmarshal_pointer CustomHostnameResponse_zero "cloudflare.CustomHostnameResponse"
    object syntax_error.

(** The type error of a body that is JSON of kind [k], neither [null] nor
    an object. *)
Definition wrong_kind (k : json.kind) : errors.value :=
  json.UnmarshalTypeError (json.kind_name k) "cloudflare.CustomHostnameResponse".

(** ** The concrete client with the decoder of [encoding/json] *)

Module Wire.

(** The fields of an object are decoded as the demo decoder does, on the
    objects it knows. *)
Definition object (data : list Byte.byte)
    (target : CustomHostnameResponse Demo.any Demo.Response)
  : CustomHostnameResponse Demo.any Demo.Response * error :=
  match Demo.unmarshal_pointer data (Some target) with
  | (Some response, err) => (response, err)
  | (None, err) => (target, err)
  end.

Definition syntax_error (data : list Byte.byte) : errors.value :=
  Demo.syntax_error.

Definition decoder
  : Unmarshaler (option (CustomHostnameResponse Demo.any Demo.Response)) :=
  Unmarshal_CustomHostnameResponse object syntax_error.

(** A successful answer with the body [text]. *)
Definition answers (text : string) : State Demo.any Demo.World :=
  Demo.start [Demo.ok text].

End Wire.

(** ** Facts about query strings *)

Section UrlFacts.
Import url.

Example Itoa_examples :
  strconv.Itoa 0 = "0" /\ strconv.Itoa 50 = "50" /\ strconv.Itoa (-7) = "-7".
Proof. repeat split. Qed.

Example QueryEscape_examples :
  QueryEscape "a.example.com" = "a.example.com" /\
  QueryEscape "*.example.com" = "%2A.example.com" /\
  QueryEscape "a b&c=d/~" = "a+b%26c%3Dd%2F~".
Proof. repeat split. Qed.

Example QueryUnescape_examples :
  QueryUnescape "a+b%26c%3Dd%2f~" = Some "a b&c=d/~" /\
  QueryUnescape "100%" = None /\ QueryUnescape "%zz" = None.
Proof. repeat split. Qed.

Example Values_Encode_example :
  Values_Encode
    (Values_Set "hostname" "*.example.com"
       (Values_Set "page" "3" (Values_Set "per_page" "50" ∅)))
  = "hostname=%2A.example.com&page=3&per_page=50".
Proof. vm_compute. reflexivity. Qed.

Example ParseQuery_example :
  ParseQuery "b=2&a=1&&b=3&c" = (<[ "a" := ["1"] ]> (<[ "b" := ["2"; "3"] ]> (<[ "c" := [""] ]> ∅)), false)
  /\ (ParseQuery "a=1;b=2").2 = true.
Proof. split; vm_compute; reflexivity. Qed.

Lemma app_cons (c : ascii) (a b : string) : String c a +:+ b = String c (a +:+ b).
Proof. reflexivity. Qed.

Lemma app_assoc_s (a b c : string) : (a +:+ b) +:+ c = a +:+ (b +:+ c).
Proof. induction a as [|x a IH]; [reflexivity|]. rewrite !app_cons, IH. reflexivity. Qed.

Lemma QueryEscape_cons c s : QueryEscape (String c s) = escape_byte c +:+ QueryEscape s.
Proof.
  unfold escape_byte; simpl.
  destruct (Ascii.eqb c " "); [reflexivity|].
  destruct (shouldEscape c); reflexivity.
Qed.

Lemma QueryUnescape_escape_byte c r :
  QueryUnescape (escape_byte c +:+ r) = String c <$> QueryUnescape r.
Proof.
  destruct c as [[] [] [] [] [] [] [] []]; reflexivity.
Qed.

Lemma QueryUnescape_QueryEscape s : QueryUnescape (QueryEscape s) = Some s.
Proof.
  induction s as [|c s IH]; [reflexivity|].
  rewrite QueryEscape_cons, QueryUnescape_escape_byte, IH. reflexivity.
Qed.

Lemma contains_cons sep c s :
  contains sep (String c s) = Ascii.eqb sep c || contains sep s.
Proof. reflexivity. Qed.

Lemma contains_app sep a b :
  contains sep (a +:+ b) = contains sep a || contains sep b.
Proof.
  induction a as [|x a IH]; [reflexivity|].
  rewrite app_cons, !contains_cons, IH. apply orb_assoc.
Qed.

Lemma escape_byte_no_separator sep c :
  separator sep = true -> contains sep (escape_byte c) = false.
Proof.
  unfold separator. intros Hsep.
  destruct (Ascii.eqb_spec sep "&") as [->|_];
    [destruct c as [[] [] [] [] [] [] [] []]; reflexivity|].
  destruct (Ascii.eqb_spec sep "=") as [->|_];
    [destruct c as [[] [] [] [] [] [] [] []]; reflexivity|].
  destruct (Ascii.eqb_spec sep ";") as [->|_];
    [destruct c as [[] [] [] [] [] [] [] []]; reflexivity|].
  discriminate.
Qed.

Lemma QueryEscape_no_separator sep s :
  separator sep = true -> contains sep (QueryEscape s) = false.
Proof.
  intros Hsep. induction s as [|c s IH]; [reflexivity|].
  rewrite QueryEscape_cons, contains_app, IH, escape_byte_no_separator by assumption.
  reflexivity.
Qed.

Lemma QueryEscape_digits d :
  QueryEscape (NilEmpty.string_of_uint d) = NilEmpty.string_of_uint d.
Proof. induction d; simpl; [reflexivity|rewrite IHd; reflexivity ..]. Qed.

Lemma QueryEscape_Itoa i : QueryEscape (strconv.Itoa i) = strconv.Itoa i.
Proof.
  unfold strconv.Itoa. destruct (Z.to_int i) as [d|d]; simpl.
  - apply QueryEscape_digits.
  - rewrite QueryEscape_digits. reflexivity.
Qed.

Lemma Cut_found sep a b :
  contains sep a = false -> Cut sep (a +:+ String sep b) = (a, b, true).
Proof.
  induction a as [|x a IH]; intros Ha.
  - simpl. rewrite Ascii.eqb_refl. reflexivity.
  - rewrite contains_cons in Ha. apply orb_false_iff in Ha as [Hx Ha].
    rewrite app_cons. simpl. rewrite Ascii.eqb_sym, Hx, (IH Ha). reflexivity.
Qed.

Lemma pieces_stop sep a cur :
  contains sep a = false ->
  pieces sep a cur = if String.eqb (cur +:+ a) "" then [] else [cur +:+ a].
Proof.
  revert cur. induction a as [|x a IH]; intros cur Ha.
  - simpl. replace (cur +:+ "") with cur; [reflexivity|].
    induction cur as [|y cur IHc]; [reflexivity|]. rewrite app_cons, <- IHc. reflexivity.
  - rewrite contains_cons in Ha. apply orb_false_iff in Ha as [Hx Ha].
    simpl. rewrite Ascii.eqb_sym, Hx, (IH _ Ha), app_assoc_s. reflexivity.
Qed.

Lemma pieces_next sep a b cur :
  contains sep a = false ->
  pieces sep (a +:+ String sep b) cur = (cur +:+ a) :: pieces sep b "".
Proof.
  revert cur. induction a as [|x a IH]; intros cur Ha.
  - simpl. rewrite Ascii.eqb_refl. replace (cur +:+ "") with cur; [reflexivity|].
    induction cur as [|y cur IHc]; [reflexivity|]. rewrite app_cons, <- IHc. reflexivity.
  - rewrite contains_cons in Ha. apply orb_false_iff in Ha as [Hx Ha].
    rewrite app_cons. simpl. rewrite Ascii.eqb_sym, Hx, (IH _ Ha), app_assoc_s. reflexivity.
Qed.

Lemma Encode_page_only p :
  Values_Encode (Values_Set "page" p (Values_Set "per_page" "50" ∅))
  = "page=" +:+ QueryEscape p +:+ "&per_page=50".
Proof.
  unfold Values_Encode.
  replace (sorted_keys _) with ["page"; "per_page"] by (vm_compute; reflexivity).
  unfold encode_key, Values_Set. cbn [mbind list_bind app fmap list_fmap].
  rewrite lookup_insert_eq, lookup_insert_ne, lookup_insert_eq by discriminate.
  cbn. rewrite !app_assoc_s. reflexivity.
Qed.

Lemma Encode_with_hostname h p :
  Values_Encode
    (Values_Set "hostname" h (Values_Set "page" p (Values_Set "per_page" "50" ∅)))
  = "hostname=" +:+ QueryEscape h +:+ "&page=" +:+ QueryEscape p +:+ "&per_page=50".
Proof.
  unfold Values_Encode.
  replace (sorted_keys _) with ["hostname"; "page"; "per_page"]
    by (vm_compute; reflexivity).
  unfold encode_key, Values_Set. cbn [mbind list_bind app fmap list_fmap].
  rewrite lookup_insert_eq.
  rewrite (lookup_insert_ne _ "hostname" "page"), lookup_insert_eq by discriminate.
  rewrite !(lookup_insert_ne _ _ "per_page"), lookup_insert_eq by discriminate.
  cbn. rewrite !app_assoc_s. reflexivity.
Qed.

Lemma Encode_filter_values N H :
  Values_Encode
    (if negb (String.eqb H "")
     then Values_Set "hostname" H
            (Values_Set "page" (strconv.Itoa N) (Values_Set "per_page" "50" ∅))
     else Values_Set "page" (strconv.Itoa N) (Values_Set "per_page" "50" ∅))
  = sorted_query N H.
Proof.
  unfold sorted_query. destruct (String.eqb H ""); cbn [negb].
  - rewrite Encode_page_only, QueryEscape_Itoa. reflexivity.
  - rewrite Encode_with_hostname, QueryEscape_Itoa, !app_assoc_s. reflexivity.
Qed.

Lemma Itoa_no_separator sep i :
  separator sep = true -> contains sep (strconv.Itoa i) = false.
Proof. intros Hsep. rewrite <- QueryEscape_Itoa. now apply QueryEscape_no_separator. Qed.

Lemma QueryUnescape_Itoa i : QueryUnescape (strconv.Itoa i) = Some (strconv.Itoa i).
Proof. rewrite <- QueryEscape_Itoa at 1. apply QueryUnescape_QueryEscape. Qed.

Lemma parse_piece_pair m key value :
  contains ";" key = false -> contains "=" key = false ->
  contains ";" (QueryEscape value) = false ->
  key <> "" ->
  QueryUnescape key = Some key ->
  parse_piece m (key +:+ "=" +:+ QueryEscape value)
  = (<[ key := (default [] (m !! key) ++ [value])%list ]> m, false).
Proof.
  intros Hk1 Hk2 Hv Hne Hun. unfold parse_piece.
  change ("=" +:+ QueryEscape value) with (String "=" (QueryEscape value)).
  rewrite contains_app, contains_cons, Hk1, Hv. cbn [orb Ascii.eqb Bool.eqb].
  destruct (String.eqb_spec (key +:+ String "=" (QueryEscape value)) "") as [E|_].
  { destruct key; discriminate. }
  rewrite (Cut_found "=" key _ Hk2), Hun, QueryUnescape_QueryEscape. reflexivity.
Qed.

Lemma parse_piece_literal m key value :
  contains ";" key = false -> contains "=" key = false ->
  key <> "" -> QueryUnescape key = Some key ->
  parse_piece m (key +:+ "=" +:+ QueryEscape value)
  = (<[ key := (default [] (m !! key) ++ [value])%list ]> m, false).
Proof.
  intros. apply parse_piece_pair; try assumption.
  now apply QueryEscape_no_separator.
Qed.

Lemma ParseQuery_sorted_query N H :
  ParseQuery (sorted_query N H) = (read_back N H, false).
Proof.
  unfold ParseQuery, sorted_query, read_back.
  assert (Hpage : forall m : Values,
    foldl (fun '(m, bad) piece =>
             let '(m', bad') := parse_piece m piece in (m', bad || bad'))
          (m, false) (pieces "&" ("page=" +:+ strconv.Itoa N +:+ "&per_page=50") "")
    = (<[ "per_page" := (default [] (<[ "page" := (default [] (m !! "page") ++ [strconv.Itoa N])%list ]> m !! "per_page") ++ ["50"])%list ]>
         (<[ "page" := (default [] (m !! "page") ++ [strconv.Itoa N])%list ]> m), false)).
  { intros m.
    change ("page=" +:+ strconv.Itoa N +:+ "&per_page=50")
      with ("page=" +:+ strconv.Itoa N +:+ String "&" "per_page=50").
    rewrite <- app_assoc_s, pieces_next
      by (rewrite contains_app, Itoa_no_separator; reflexivity).
    cbn [foldl]. rewrite <- (QueryEscape_Itoa N) at 1.
    change ("" +:+ "page=" +:+ QueryEscape (strconv.Itoa N))
      with ("page" +:+ "=" +:+ QueryEscape (strconv.Itoa N)).
    rewrite parse_piece_literal by (reflexivity || discriminate).
    change (pieces "&" "per_page=50" "") with ["per_page" +:+ "=" +:+ QueryEscape "50"].
    cbn [foldl orb]. rewrite parse_piece_literal by (reflexivity || discriminate).
    reflexivity. }
  destruct (String.eqb_spec H "") as [->|Hne].
  - change ("" +:+ "page=" +:+ strconv.Itoa N +:+ "&per_page=50")
      with ("page=" +:+ strconv.Itoa N +:+ "&per_page=50").
    rewrite Hpage. rewrite lookup_empty, lookup_insert_ne, lookup_empty by discriminate.
    reflexivity.
  - rewrite !app_assoc_s.
    change ("&" +:+ "page=" +:+ strconv.Itoa N +:+ "&per_page=50")
      with (String "&" ("page=" +:+ strconv.Itoa N +:+ "&per_page=50")).
    rewrite <- app_assoc_s, pieces_next
      by (rewrite contains_app, QueryEscape_no_separator; reflexivity).
    cbn [foldl].
    change ("" +:+ "hostname=" +:+ QueryEscape H)
      with ("hostname" +:+ "=" +:+ QueryEscape H).
    rewrite parse_piece_literal by (reflexivity || discriminate).
    cbn [orb]. rewrite Hpage.
    rewrite lookup_empty, !lookup_insert_ne, lookup_empty by discriminate.
    reflexivity.
Qed.
End UrlFacts.

(** ** Facts about the operations *)

Section ClientFacts.

Context {any Response World : Type}.
Context `{!Package Response}.
Context `{!Unmarshaler (option (CustomHostnameResponse any Response))}.
Context `{!Unmarshaler (CustomHostnameResponse any Response)}.
Context `{!Unmarshaler (CustomHostnameListResponse any Response)}.
Variable api : API any World.

(** One run of [FilterCustomHostnames], in closed form: the request, the
    state after it, and the three ways out. *)
Lemma FilterCustomHostnames_run zoneID page filter s :
  FilterCustomHostnames api zoneID page filter s =
  let req := list_request zoneID page (Hostname filter) in
  let '(res, err, w) := transport api req (world s) in
  let s' := {| world := w; sent := (sent s ++ [req])%list |} in
  match err with
  | Some e => (([], ResultInfo_zero, TransportError e), s')
  | None =>
      match json_Unmarshal res CustomHostnameListResponse_zero with
      | (_, Some e) => (([], ResultInfo_zero, TransportError e), s')
      | (r, None) => ((ListResult r, ListResult_ResultInfo r, None), s')
      end
  end.
Proof.
  unfold FilterCustomHostnames, list_request, bodyless.
  rewrite Encode_filter_values.
  unfold mbind, M_bind, makeRequest. cbn zeta.
  change ("/custom_hostnames" +:+ "?" +:+ sorted_query page (Hostname filter))
    with ("/custom_hostnames?" +:+ sorted_query page (Hostname filter)).
  destruct (transport api _ (world s)) as [[res [e|]] w]; [reflexivity|].
  destruct (json_Unmarshal res CustomHostnameListResponse_zero) as [r [e|]];
    reflexivity.
Qed.

(** Whatever the answer, [FilterCustomHostnames] sends one request, the
    [GET] of the list. *)
Lemma FilterCustomHostnames_sent zoneID page filter s :
  sent (FilterCustomHostnames api zoneID page filter s).2
  = (sent s ++ [list_request zoneID page (Hostname filter)])%list.
Proof.
  rewrite FilterCustomHostnames_run. cbn zeta.
  destruct (transport api _ (world s)) as [[res [e|]] w]; [reflexivity|].
  destruct (json_Unmarshal res CustomHostnameListResponse_zero) as [r [e|]];
    reflexivity.
Qed.

(** The loop returns the id of the first entry with the hostname. *)
Lemma range_customHostnames_first hostname
    (before after : list (CustomHostname any)) ch :
  (forall c, c ∈ before -> Hostname c <> hostname) ->
  Hostname ch = hostname ->
  range_customHostnames hostname (before ++ ch :: after) = Some (ID ch).
Proof.
  intros Hbefore Hch. induction before as [|c before IH]; simpl.
  - rewrite Hch, String.eqb_refl. reflexivity.
  - destruct (String.eqb_spec (Hostname c) hostname) as [E|_].
    + exfalso. apply (Hbefore c); [left | exact E].
    + apply IH. intros c' Hc'. apply Hbefore. now right.
Qed.

(** An id the loop returns is the id of an entry with the hostname. *)
Lemma range_customHostnames_Some hostname
    (customHostnames : list (CustomHostname any)) id :
  range_customHostnames hostname customHostnames = Some id ->
  exists ch, ch ∈ customHostnames /\ Hostname ch = hostname /\ ID ch = id.
Proof.
  induction customHostnames as [|c rest IH]; simpl; [discriminate|].
  destruct (String.eqb_spec (Hostname c) hostname) as [E|_].
  - intros [= <-]. exists c. split; [left | split; [exact E | reflexivity]].
  - intros Hrest. destruct (IH Hrest) as (ch & Hin & Hh & Hid).
    exists ch. split; [now right | split; assumption].
Qed.

(** The loop runs to its end only when no entry has the hostname. *)
Lemma range_customHostnames_None hostname
    (customHostnames : list (CustomHostname any)) :
  range_customHostnames hostname customHostnames = None ->
  forall ch, ch ∈ customHostnames -> Hostname ch <> hostname.
Proof.
  induction customHostnames as [|c rest IH]; simpl; intros Hnone ch Hin.
  - inversion Hin.
  - destruct (String.eqb_spec (Hostname c) hostname) as [E|NE]; [discriminate|].
    inversion Hin; subst; [exact NE | now apply IH].
Qed.

(** [CustomHostnameIDByName] is the page-1 call of
    [FilterCustomHostnames] followed by the loop. *)
Lemma CustomHostnameIDByName_run zoneID hostname s :
  CustomHostnameIDByName api zoneID hostname s =
  let '(customHostnames, _, err, s') :=
    FilterCustomHostnames api zoneID 1 (by_hostname hostname) s in
  match err with
  | Some e =>
      (("", Some (errors.withMessage e "failed to fetch CustomHostnameIDByName")),
       s')
  | None =>
      match range_customHostnames hostname customHostnames with
      | Some id => ((id, None), s')
      | None => (("", NotFound), s')
      end
  end.
Proof.
  unfold CustomHostnameIDByName, mbind, M_bind.
  change {| ID := ""; Hostname := hostname; CustomOriginServer := "";
            SSL := CustomHostnameSSL_zero; CustomMetadata := ∅ |}
    with (by_hostname (any:=any) hostname).
  destruct (FilterCustomHostnames api zoneID 1 (by_hostname hostname) s)
    as [[[customHostnames info] [e|]] s']; [reflexivity|].
  destruct (range_customHostnames hostname customHostnames); reflexivity.
Qed.

(** C1.  [CustomHostnameIDByName] makes the page-1 call of
    [FilterCustomHostnames] with the filter whose [Hostname] is the query,
    and nothing else: the only request sent is the [GET] of page 1.  When
    that call succeeds, either some entry of the returned sequence has
    exactly the queried hostname and its id is returned with no error, or
    no entry has it and the result is the empty id with [NotFound];
    later pages are never asked for. *)
Theorem CustomHostnameIDByName_first_page zoneID hostname s
    customHostnames info s' :
  FilterCustomHostnames api zoneID 1 (by_hostname hostname) s
    = ((customHostnames, info, None), s') ->
  sent s' = (sent s ++ [list_request zoneID 1 hostname])%list /\
  ((exists ch, ch ∈ customHostnames /\ Hostname ch = hostname /\
      CustomHostnameIDByName api zoneID hostname s = ((ID ch, None), s'))
   \/
   ((forall ch, ch ∈ customHostnames -> Hostname ch <> hostname) /\
      CustomHostnameIDByName api zoneID hostname s = (("", NotFound), s'))).
Proof.
  intros Hcall. split.
  - pose proof (FilterCustomHostnames_sent zoneID 1 (by_hostname hostname) s) as Hs.
    rewrite Hcall in Hs. exact Hs.
  - rewrite CustomHostnameIDByName_run, Hcall.
    destruct (range_customHostnames hostname customHostnames) as [id|] eqn:Hloop.
    + left. destruct (range_customHostnames_Some _ _ _ Hloop) as (ch & Hin & Hh & <-).
      exists ch. split; [exact Hin | split; [exact Hh | reflexivity]].
    + right. split; [now apply range_customHostnames_None | reflexivity].
Qed.

(** C2.  [ListCustomHostnames(zoneID, page)] returns the triple, and
    leaves the state, of [FilterCustomHostnames(zoneID, page, filter)]
    at the empty filter [CustomHostname{}], in every state of the
    transport. *)
Theorem ListCustomHostnames_is_Filter zoneID page s :
  ListCustomHostnames api zoneID page s
  = FilterCustomHostnames api zoneID page CustomHostname_zero s.
Proof. reflexivity. Qed.

(** C3.  [UpdateCustomHostnameSSL] returns the zero hostname with the
    [NotImplemented] error and leaves the state as it found it: no
    request is added to the ones sent and the world is not consulted. *)
Theorem UpdateCustomHostnameSSL_not_implemented zoneID customHostnameID ssl s :
  UpdateCustomHostnameSSL api zoneID customHostnameID ssl s
  = ((CustomHostname_zero, NotImplemented), s).
Proof. reflexivity. Qed.

(** C4.  The query of the request [FilterCustomHostnames] sends parses
    back, without error, to parameters where [per_page] is [50], [page]
    is the decimal rendering of the page (a text that reads back, as a
    decimal number, to the page), and [hostname] is absent for
    an empty filter hostname and has the filter hostname as its single
    value otherwise. *)
Theorem FilterCustomHostnames_query_parameters zoneID page filter s :
  exists query parameters,
    sent (FilterCustomHostnames api zoneID page filter s).2
    = (sent s ++
       [bodyless "GET" ("/zones/" +:+ zoneID +:+ "/custom_hostnames?" +:+ query)])%list
    /\ url.ParseQuery query = (parameters, false)
    /\ parameters !! "per_page" = Some ["50"]
    /\ parameters !! "page" = Some [strconv.Itoa page]
    /\ Z.of_int <$> NilEmpty.int_of_string (strconv.Itoa page) = Some page
    /\ parameters !! "hostname"
       = if String.eqb (Hostname filter) "" then None
         else Some [Hostname filter].
Proof.
  exists (sorted_query page (Hostname filter)), (read_back page (Hostname filter)).
  split; [apply FilterCustomHostnames_sent|].
  split; [apply ParseQuery_sorted_query|].
  unfold read_back. split; [apply lookup_insert_eq|].
  split; [rewrite lookup_insert_ne by discriminate; apply lookup_insert_eq|].
  split; [unfold strconv.Itoa; rewrite NilEmpty.isi; cbn [fmap option_fmap option_map];
          now rewrite DecimalZ.of_to|].
  rewrite !lookup_insert_ne by discriminate.
  destruct (String.eqb (Hostname filter) "");
    [apply lookup_empty | apply lookup_insert_eq].
Qed.

(** What [FilterCustomHostnames] returns when the transport succeeds and
    the decoder fails: the failure of the decoder in the context of
    [makeRequest], the one of a [TransportError]. *)
Lemma FilterCustomHostnames_decode_failure zoneID page filter s res w r e :
  transport api (list_request zoneID page (Hostname filter)) (world s)
    = ((res, None), w) ->
  json_Unmarshal res CustomHostnameListResponse_zero = (r, Some e) ->
  (FilterCustomHostnames api zoneID page filter s).1
  = ([], ResultInfo_zero, TransportError e).
Proof.
  intros Ht Hj. rewrite FilterCustomHostnames_run. cbn zeta.
  rewrite Ht, Hj. reflexivity.
Qed.

(** The outcomes of [DeleteCustomHostname] for any decoder.  When the
    transport fails it returns a [TransportError] around the failure; when
    the transport succeeds and the decoder accepts the bytes it returns
    [nil], whatever the decoded response is; when the decoder rejects the
    bytes it returns a [DecodeError] around the rejection. *)
Lemma DeleteCustomHostname_outcomes zoneID customHostnameID s res err w :
  transport api
    (bodyless "DELETE" ("/zones/" +:+ zoneID +:+ "/custom_hostnames/" +:+ customHostnameID))
    (world s) = ((res, err), w) ->
  let decode :=
    json_Unmarshal res (None : option (CustomHostnameResponse any Response)) in
  let out := (DeleteCustomHostname api zoneID customHostnameID s).1 in
  (forall e, err = Some e -> out = TransportError e) /\
  (err = None -> forall response, decode = (response, None) -> out = None) /\
  (err = None -> forall response e, decode = (response, Some e) -> out = DecodeError e).
Proof.
  intros Ht decode out. subst decode out.
  unfold DeleteCustomHostname, mbind, M_bind, makeRequest, bodyless in *.
  cbn zeta. rewrite Ht. repeat split.
  - intros e ->. reflexivity.
  - intros -> response Hd. rewrite Hd. reflexivity.
  - intros -> response e Hd. rewrite Hd. reflexivity.
Qed.

(** The outcomes of [CreateCustomHostname] for any decoder.  It sends one
    request, the [POST] of the collection path of the zone with the
    hostname as its body.  When the transport fails it returns a
    [TransportError] around the failure; when the transport succeeds and
    the decoder accepts the bytes it returns the pointer as the decoder
    left it; when the decoder rejects the bytes it returns a [DecodeError]
    around the rejection. *)
Lemma CreateCustomHostname_outcomes zoneID ch s res err w :
  let req := {| method := "POST";
                uri := "/zones/" +:+ zoneID +:+ "/custom_hostnames";
                params := Some ch |} in
  transport api req (world s) = ((res, err), w) ->
  let decode :=
    json_Unmarshal res (None : option (CustomHostnameResponse any Response)) in
  let out := (CreateCustomHostname api zoneID ch s).1 in
  (CreateCustomHostname api zoneID ch s).2
    = {| world := w; sent := (sent s ++ [req])%list |} /\
  (forall e, err = Some e -> out = (None, TransportError e)) /\
  (err = None -> forall response, decode = (response, None) ->
     out = (response, None)) /\
  (err = None -> forall response e, decode = (response, Some e) ->
     out = (None, DecodeError e)).
Proof.
  intros req Ht decode out. subst req decode out.
  unfold CreateCustomHostname, mbind, M_bind, makeRequest in *.
  cbn zeta. rewrite Ht. repeat split.
  - destruct err as [e|]; [reflexivity|].
    destruct (json_Unmarshal res None) as [response [e|]]; reflexivity.
  - intros e ->. reflexivity.
  - intros -> response Hd. rewrite Hd. reflexivity.
  - intros -> response e Hd. rewrite Hd. reflexivity.
Qed.

(** C8, as the code has it.  The URI of the request
    [FilterCustomHostnames] sends is [/zones/{zoneID}/custom_hostnames]
    followed by [?] and the parameters in the order of their names, with
    the hostname escaped for a query: [hostname=H&page=N&per_page=50] for
    a filter hostname [H] that is not empty, [page=N&per_page=50] for the
    empty one. *)
Theorem FilterCustomHostnames_uri zoneID page filter s :
  sent (FilterCustomHostnames api zoneID page filter s).2
  = (sent s ++
     [bodyless "GET"
        ("/zones/" +:+ zoneID +:+ "/custom_hostnames?" +:+
         (if String.eqb (Hostname filter) ""
          then "page=" +:+ strconv.Itoa page +:+ "&per_page=50"
          else "hostname=" +:+ url.QueryEscape (Hostname filter) +:+
               "&page=" +:+ strconv.Itoa page +:+ "&per_page=50"))])%list.
Proof.
  rewrite FilterCustomHostnames_sent. unfold list_request, sorted_query.
  destruct (String.eqb (Hostname filter) ""); [reflexivity|].
  rewrite !app_assoc_s. reflexivity.
Qed.

(** C9.  When [FilterCustomHostnames] returns an error, the sequence it
    returns is empty and the [ResultInfo] is the zero one, whatever the
    decoder had filled in before it failed. *)
Theorem FilterCustomHostnames_error_no_data zoneID page filter s
    customHostnames info e s' :
  FilterCustomHostnames api zoneID page filter s
    = ((customHostnames, info, Some e), s') ->
  customHostnames = [] /\ info = ResultInfo_zero.
Proof.
  rewrite FilterCustomHostnames_run. cbn zeta.
  destruct (transport api _ (world s)) as [[res [e0|]] w].
  - intros [= <- <- _ _]. split; reflexivity.
  - destruct (json_Unmarshal res CustomHostnameListResponse_zero) as [r [e0|]].
    + intros [= <- <- _ _]. split; reflexivity.
    + discriminate.
Qed.

(** C10.  When the page returned to [CustomHostnameIDByName] holds several
    entries with exactly the queried hostname, the id returned is that of
    the first of them in the order of the sequence: the entry that no
    entry with the hostname precedes. *)
Theorem CustomHostnameIDByName_first_match zoneID hostname s
    before ch after info s' :
  FilterCustomHostnames api zoneID 1 (by_hostname hostname) s
    = (((before ++ ch :: after)%list, info, None), s') ->
  (forall c, c ∈ before -> Hostname c <> hostname) ->
  Hostname ch = hostname ->
  CustomHostnameIDByName api zoneID hostname s = ((ID ch, None), s').
Proof.
  intros Hcall Hbefore Hch.
  rewrite CustomHostnameIDByName_run, Hcall.
  rewrite (range_customHostnames_first hostname before after ch Hbefore Hch).
  reflexivity.
Qed.

End ClientFacts.

(** ** The operations on the concrete client *)

(** C1 on a first page whose entries only resemble the query (another
    case, a longer name, a shorter name) while page 2 holds the match: the
    lookup ends in [NotFound] and the answer of page 2 is still to come. *)
Lemma CustomHostnameIDByName_first_page_witness :
  let s := Demo.start [Demo.ok Demo.page_with_near_matches; Demo.ok Demo.page_two] in
  let s' := Demo.after (list_request "z1" 1 "a.example.com") [Demo.ok Demo.page_two] in
  FilterCustomHostnames Demo.api "z1" 1 (by_hostname "a.example.com") s
    = ((Demo.near_matches, Demo.info 1 53, None), s') /\
  CustomHostnameIDByName Demo.api "z1" "a.example.com" s = (("", NotFound), s').
Proof.
  intros s s'.
  assert (Hcall : FilterCustomHostnames Demo.api "z1" 1 (by_hostname "a.example.com") s
                  = ((Demo.near_matches, Demo.info 1 53, None), s'))
    by (vm_compute; reflexivity).
  split; [exact Hcall|].
  destruct (CustomHostnameIDByName_first_page Demo.api "z1" "a.example.com" s
              Demo.near_matches (Demo.info 1 53) s' Hcall)
    as [_ [(ch & Hin & Hh & _) | [_ Hrun]]]; [exfalso | exact Hrun].
  unfold Demo.near_matches in Hin.
  repeat (apply elem_of_cons in Hin as [-> | Hin]; [discriminate Hh|]).
  inversion Hin.
Defined.

(** The deletion, with the demo decoder, on an answer that reports a
    failure of the service. *)
Lemma DeleteCustomHostname_outcomes_witness :
  let s := Demo.start [Demo.ok Demo.failure_envelope] in
  transport Demo.api (bodyless "DELETE" "/zones/z1/custom_hostnames/abc123") (world s)
    = (Demo.ok Demo.failure_envelope, []) /\
  (DeleteCustomHostname Demo.api "z1" "abc123" s).1 = None.
Proof.
  intros s. split; [reflexivity|].
  refine (proj1 (proj2 (DeleteCustomHostname_outcomes Demo.api "z1" "abc123" s
                          (list_byte_of_string Demo.failure_envelope) None [] _))
            eq_refl
            (Some {| Result := CustomHostname_zero; Result_Response := false |}) _);
    vm_compute; reflexivity.
Defined.

(** The creation of [a.example.com], with the demo decoder, which the
    service answers with the resource under the id [abc123]. *)
Lemma CreateCustomHostname_outcomes_witness :
  let s := Demo.start [Demo.ok Demo.created] in
  let req := {| method := "POST"; uri := "/zones/z1/custom_hostnames";
                params := Some (Demo.host "" "a.example.com") |} in
  transport Demo.api req (world s) = (Demo.ok Demo.created, []) /\
  CreateCustomHostname Demo.api "z1" (Demo.host "" "a.example.com") s
  = ((Some {| Result := Demo.host "abc123" "a.example.com"; Result_Response := true |},
      None), Demo.after req []).
Proof.
  intros s req. split; [reflexivity|].
  destruct (CreateCustomHostname_outcomes Demo.api "z1" (Demo.host "" "a.example.com") s
              (list_byte_of_string Demo.created) None [] eq_refl)
    as (Hstate & _ & Hok & _).
  specialize (Hok eq_refl _ ltac:(vm_compute; reflexivity)).
  destruct (CreateCustomHostname Demo.api "z1" (Demo.host "" "a.example.com") s)
    as [out st]. simpl in Hstate, Hok. subst out st. reflexivity.
Defined.

(** C9 on an answer whose [result] decodes and whose [result_info] does
    not: the decoder has filled the sequence, the caller gets none of it. *)
Lemma FilterCustomHostnames_error_no_data_witness :
  let s := Demo.start [Demo.ok Demo.page_with_bad_info] in
  ListResult
    (json_Unmarshal (list_byte_of_string Demo.page_with_bad_info)
       (CustomHostnameListResponse_zero (any:=Demo.any))).1
    = [Demo.host "id-1" "b.example.com"] /\
  exists e s',
    FilterCustomHostnames Demo.api "z1" 1 CustomHostname_zero s
      = (([], ResultInfo_zero, Some e), s').
Proof.
  intros s. split; [vm_compute; reflexivity|].
  destruct (FilterCustomHostnames Demo.api "z1" 1 CustomHostname_zero s)
    as [[[customHostnames info] err] s'] eqn:Hrun.
  assert (Herr : err = TransportError Demo.type_error).
  { apply (f_equal (fun r => r.1.2)) in Hrun. cbn [fst snd] in Hrun.
    rewrite <- Hrun. vm_compute. reflexivity. }
  subst err.
  destruct (FilterCustomHostnames_error_no_data Demo.api "z1" 1 CustomHostname_zero s
              customHostnames info _ s' Hrun) as [-> ->].
  eexists _, s'. reflexivity.
Defined.

(** C10 on a first page with two entries of the queried hostname: the id
    is that of the one that comes first. *)
Lemma CustomHostnameIDByName_first_match_witness :
  let s := Demo.start [Demo.ok Demo.page_with_two_matches] in
  Demo.two_matches
  = ([Demo.host "id-1" "b.example.com"] ++ Demo.host "id-2" "a.example.com"
       :: [Demo.host "id-3" "a.example.com"])%list /\
  CustomHostnameIDByName Demo.api "z1" "a.example.com" s
  = (("id-2", None), Demo.after (list_request "z1" 1 "a.example.com") []).
Proof.
  intros s. split; [reflexivity|].
  apply (CustomHostnameIDByName_first_match Demo.api "z1" "a.example.com" s
           [Demo.host "id-1" "b.example.com"] (Demo.host "id-2" "a.example.com")
           [Demo.host "id-3" "a.example.com"] (Demo.info 1 3)).
  - vm_compute. reflexivity.
  - intros c Hc. apply elem_of_cons in Hc as [-> | Hc]; [discriminate | inversion Hc].
  - reflexivity.
Defined.

(** C5.  On a body that is not JSON, [FilterCustomHostnames] returns the
    failure of the decoder in the context of [makeRequest], which is not
    the [DecodeError] of that failure; on the same answer the lookup of one
    hostname and the deletion return the [DecodeError].  The last line is
    the text the caller reads. *)
Theorem FilterCustomHostnames_decode_error_context :
  let s := Demo.start [Demo.ok Demo.not_json] in
  (FilterCustomHostnames Demo.api "z1" 1 CustomHostname_zero s).1
    = ([], ResultInfo_zero, TransportError Demo.syntax_error) /\
  TransportError Demo.syntax_error <> DecodeError Demo.syntax_error /\
  (GetCustomHostname Demo.api "z1" "abc123" s).1
    = (CustomHostname_zero, DecodeError Demo.syntax_error) /\
  (DeleteCustomHostname Demo.api "z1" "abc123" s).1
    = DecodeError Demo.syntax_error /\
  errors.Error <$> (FilterCustomHostnames Demo.api "z1" 1 CustomHostname_zero s).1.2
    = Some "Error from makeRequest: invalid character 'o' in literal null (expecting 'u')".
Proof.
  intros s. split; [vm_compute; reflexivity|].
  split; [discriminate|]. repeat split; vm_compute; reflexivity.
Qed.

(** C8 as the table has it fails: for page 2 of zone [z1], with the filter
    hostname [a.example.com] and with none, the URI sent is not the path
    followed by the parameters in the order of the table; and a hostname
    with a wildcard is sent escaped, not as it is. *)
Lemma FilterCustomHostnames_uri_not_table_order :
  sent (FilterCustomHostnames Demo.api "z1" 2 (by_hostname "a.example.com")
          (Demo.start [Demo.ok Demo.page_two])).2
    <> [bodyless "GET"
          ("/zones/z1/custom_hostnames?" +:+ table_query 2 "a.example.com")] /\
  sent (FilterCustomHostnames Demo.api "z1" 2 CustomHostname_zero
          (Demo.start [Demo.ok Demo.page_two])).2
    <> [bodyless "GET" ("/zones/z1/custom_hostnames?" +:+ table_query 2 "")] /\
  sent (FilterCustomHostnames Demo.api "z1" 2 (by_hostname "*.example.com")
          (Demo.start [Demo.ok Demo.page_two])).2
    = [bodyless "GET"
         "/zones/z1/custom_hostnames?hostname=%2A.example.com&page=2&per_page=50"].
Proof.
  repeat split; vm_compute; (discriminate || reflexivity).
Qed.

(** ** Further facts about the operations *)

(** Two integers with the same decimal rendering are the same. *)
Lemma Itoa_inj i j : strconv.Itoa i = strconv.Itoa j -> i = j.
Proof.
  unfold strconv.Itoa. intros E. apply DecimalZ.to_int_inj.
  apply (f_equal NilEmpty.int_of_string) in E.
  rewrite !NilEmpty.isi in E. now injection E.
Qed.

(** The query sent determines the page and the filter hostname. *)
Lemma sorted_query_inj N1 H1 N2 H2 :
  sorted_query N1 H1 = sorted_query N2 H2 -> N1 = N2 /\ H1 = H2.
Proof.
  intros E. apply (f_equal url.ParseQuery) in E.
  rewrite !ParseQuery_sorted_query in E. injection E as E.
  assert (Hpage : read_back N1 H1 !! "page" = read_back N2 H2 !! "page")
    by now rewrite E.
  assert (Hhost : read_back N1 H1 !! "hostname" = read_back N2 H2 !! "hostname")
    by now rewrite E.
  unfold read_back in Hpage, Hhost.
  rewrite !(lookup_insert_ne _ "per_page") in Hpage, Hhost by discriminate.
  rewrite !lookup_insert_eq in Hpage.
  rewrite !(lookup_insert_ne _ "page") in Hhost by discriminate.
  split; [apply Itoa_inj; congruence|].
  destruct (String.eqb_spec H1 "") as [-> | _], (String.eqb_spec H2 "") as [-> | _];
    rewrite ?lookup_empty, ?lookup_insert_eq in Hhost; congruence.
Qed.

Section MoreClientFacts.

Context {any Response World : Type}.
Context `{!Package Response}.
Context `{!Unmarshaler (option (CustomHostnameResponse any Response))}.
Context `{!Unmarshaler (CustomHostnameResponse any Response)}.
Context `{!Unmarshaler (CustomHostnameListResponse any Response)}.
Variable api : API any World.

(** X1.  The method [CustomHostname] sends one request, the [GET] of the
    item path with no body.  When the transport fails it returns the zero
    hostname and a [TransportError] around the failure; when the decoder
    rejects the bytes, the zero hostname and a [DecodeError] around the
    rejection; otherwise the [Result] of the decoded response and no
    error. *)
Theorem GetCustomHostname_outcomes zoneID customHostnameID s res err w :
  let req := bodyless "GET"
               ("/zones/" +:+ zoneID +:+ "/custom_hostnames/" +:+ customHostnameID) in
  transport api req (world s) = ((res, err), w) ->
  let decode := json_Unmarshal res CustomHostnameResponse_zero in
  let out := (GetCustomHostname api zoneID customHostnameID s).1 in
  (GetCustomHostname api zoneID customHostnameID s).2
    = {| world := w; sent := (sent s ++ [req])%list |} /\
  (forall e, err = Some e -> out = (CustomHostname_zero, TransportError e)) /\
  (err = None -> forall response, decode = (response, None) ->
     out = (Result response, None)) /\
  (err = None -> forall response e, decode = (response, Some e) ->
     out = (CustomHostname_zero, DecodeError e)).
Proof.
  intros req Ht decode out. subst req decode out.
  unfold GetCustomHostname, mbind, M_bind, makeRequest, bodyless in *.
  cbn zeta. rewrite Ht. repeat split.
  - destruct err as [e|]; [reflexivity|].
    destruct (json_Unmarshal res CustomHostnameResponse_zero) as [response [e|]];
      reflexivity.
  - intros e ->. reflexivity.
  - intros -> response Hd. rewrite Hd. reflexivity.
  - intros -> response e Hd. rewrite Hd. reflexivity.
Qed.

(** X2.  When the method [CustomHostname] returns an error, the hostname
    it returns is the zero one: nothing of what the decoder may have
    filled in reaches the caller. *)
Theorem GetCustomHostname_error_no_data zoneID customHostnameID s ch e s' :
  GetCustomHostname api zoneID customHostnameID s = ((ch, Some e), s') ->
  ch = CustomHostname_zero.
Proof.
  unfold GetCustomHostname, mbind, M_bind, makeRequest. cbn zeta.
  destruct (transport api _ (world s)) as [[res [e0|]] w].
  - intros [= <- _ _]. reflexivity.
  - destruct (json_Unmarshal res CustomHostnameResponse_zero) as [response [e0|]].
    + intros [= <- _ _]. reflexivity.
    + discriminate.
Qed.

(** X3.  When [CreateCustomHostname] returns an error, the response it
    returns is [nil]. *)
Theorem CreateCustomHostname_error_nil zoneID ch s response e s' :
  CreateCustomHostname api zoneID ch s = ((response, Some e), s') ->
  response = None.
Proof.
  unfold CreateCustomHostname, mbind, M_bind, makeRequest. cbn zeta.
  destruct (transport api _ (world s)) as [[res [e0|]] w].
  - intros [= <- _ _]. reflexivity.
  - destruct (json_Unmarshal res None) as [r [e0|]].
    + intros [= <- _ _]. reflexivity.
    + discriminate.
Qed.

(** X4.  Whatever the outcome, [DeleteCustomHostname] sends one request,
    the [DELETE] of the item path with no body, and leaves the world as
    the transport left it after that request. *)
Theorem DeleteCustomHostname_request zoneID customHostnameID s :
  let req := bodyless "DELETE"
               ("/zones/" +:+ zoneID +:+ "/custom_hostnames/" +:+ customHostnameID) in
  (DeleteCustomHostname api zoneID customHostnameID s).2
  = {| world := (transport api req (world s)).2;
       sent := (sent s ++ [req])%list |}.
Proof.
  unfold DeleteCustomHostname, mbind, M_bind, makeRequest, bodyless. cbn zeta.
  destruct (transport api _ (world s)) as [[res [e|]] w]; [reflexivity|].
  destruct (json_Unmarshal res None) as [r [e|]]; reflexivity.
Qed.

(** X5.  Whatever the outcome, [CustomHostnameIDByName] sends one request:
    the [GET] of page 1 of the list, filtered by the escaped hostname; for
    the empty hostname the request carries no [hostname] parameter, so the
    lookup runs over the unfiltered first page. *)
Theorem CustomHostnameIDByName_request zoneID hostname s :
  sent (CustomHostnameIDByName api zoneID hostname s).2
  = (sent s ++
     [bodyless "GET"
        ("/zones/" +:+ zoneID +:+ "/custom_hostnames?" +:+
         (if String.eqb hostname "" then "page=1&per_page=50"
          else "hostname=" +:+ url.QueryEscape hostname +:+
               "&page=1&per_page=50"))])%list.
Proof.
  rewrite CustomHostnameIDByName_run.
  pose proof (FilterCustomHostnames_sent api zoneID 1 (by_hostname hostname) s) as Hs.
  destruct (FilterCustomHostnames api zoneID 1 (by_hostname hostname) s)
    as [[[customHostnames info] err] s'].
  cbn [snd] in Hs.
  assert (Hgoal : sent s' = (sent s ++
     [bodyless "GET"
        ("/zones/" +:+ zoneID +:+ "/custom_hostnames?" +:+
         (if String.eqb hostname "" then "page=1&per_page=50"
          else "hostname=" +:+ url.QueryEscape hostname +:+
               "&page=1&per_page=50"))])%list).
  { rewrite Hs. unfold list_request, sorted_query. cbn [Hostname by_hostname].
    destruct (String.eqb hostname ""); [reflexivity|].
    rewrite !app_assoc_s. reflexivity. }
  destruct err as [e|]; [exact Hgoal|].
  destruct (range_customHostnames hostname customHostnames); exact Hgoal.
Qed.

(** X6.  When the call of [FilterCustomHostnames] fails,
    [CustomHostnameIDByName] returns the empty id and the error of the
    call, which carries the context of [makeRequest], wrapped once more
    with "failed to fetch CustomHostnameIDByName". *)
Theorem CustomHostnameIDByName_fetch_failure zoneID hostname s
    customHostnames info e s' :
  FilterCustomHostnames api zoneID 1 (by_hostname hostname) s
    = ((customHostnames, info, Some e), s') ->
  exists cause,
    e = errors.withMessage cause errMakeRequestError /\
    CustomHostnameIDByName api zoneID hostname s
    = (("", Some (errors.withMessage
                    (errors.withMessage cause errMakeRequestError)
                    "failed to fetch CustomHostnameIDByName")), s').
Proof.
  intros Hcall. rewrite CustomHostnameIDByName_run, Hcall.
  rewrite FilterCustomHostnames_run in Hcall. cbn zeta in Hcall.
  destruct (transport api _ (world s)) as [[res [e0|]] w].
  - injection Hcall as _ _ <- _. exists e0. split; reflexivity.
  - destruct (json_Unmarshal res CustomHostnameListResponse_zero) as [r [e0|]];
      [|discriminate].
    injection Hcall as _ _ <- _. exists e0. split; reflexivity.
Qed.

(** X7.  [CustomHostnameIDByName] never returns an id together with an
    error: when the error is not [nil] the id is the empty string. *)
Theorem CustomHostnameIDByName_error_empty_id zoneID hostname s id e s' :
  CustomHostnameIDByName api zoneID hostname s = ((id, Some e), s') ->
  id = "".
Proof.
  rewrite CustomHostnameIDByName_run.
  destruct (FilterCustomHostnames api zoneID 1 (by_hostname hostname) s)
    as [[[customHostnames info] [e0|]] s0].
  - intros [= <- _ _]. reflexivity.
  - destruct (range_customHostnames hostname customHostnames).
    + discriminate.
    + intros [= <- _ _]. reflexivity.
Qed.

(** X8.  Of the filter, [FilterCustomHostnames] reads the [Hostname] only:
    two filters with the same hostname, whatever their ids, origin
    servers, SSL sections and metadata, give the same request, the same
    result and the same state. *)
Theorem FilterCustomHostnames_reads_Hostname_only zoneID page filter filter' s :
  Hostname filter = Hostname filter' ->
  FilterCustomHostnames api zoneID page filter s
  = FilterCustomHostnames api zoneID page filter' s.
Proof.
  intros E. rewrite !FilterCustomHostnames_run, E. reflexivity.
Qed.

(** X9.  The request of [FilterCustomHostnames] determines the page and
    the filter hostname: in one zone, two calls that send the same request
    were made for the same page and the same hostname (no hostname, with
    whatever bytes, reads as another page or another hostname). *)
Theorem FilterCustomHostnames_request_injective zoneID page filter page' filter' s :
  sent (FilterCustomHostnames api zoneID page filter s).2
  = sent (FilterCustomHostnames api zoneID page' filter' s).2 ->
  page = page' /\ Hostname filter = Hostname filter'.
Proof.
  rewrite !FilterCustomHostnames_sent. intros E.
  apply app_inv_head in E. unfold list_request, bodyless in E.
  injection E as E. do 3 apply (inj (String.app _)) in E.
  now apply sorted_query_inj.
Qed.

(** X10.  Whatever the outcome, [ListCustomHostnames] sends one request,
    the [GET] of the collection path with the page and the page size of 50
    and no [hostname] parameter. *)
Theorem ListCustomHostnames_request zoneID page s :
  sent (ListCustomHostnames api zoneID page s).2
  = (sent s ++
     [bodyless "GET"
        ("/zones/" +:+ zoneID +:+ "/custom_hostnames?page=" +:+
         strconv.Itoa page +:+ "&per_page=50")])%list.
Proof.
  unfold ListCustomHostnames. rewrite FilterCustomHostnames_sent.
  unfold list_request, sorted_query. cbn [Hostname CustomHostname_zero String.eqb].
  reflexivity.
Qed.

(** X11.  Calls compose in the order they are made: after
    [CreateCustomHostname] and then [CustomHostnameIDByName], whatever the
    outcome of either, the requests sent are the ones sent before,
    followed by the [POST] of the creation and the [GET] of page 1. *)
Theorem Create_then_IDByName_requests zoneID ch hostname s :
  let s1 := (CreateCustomHostname api zoneID ch s).2 in
  sent (CustomHostnameIDByName api zoneID hostname s1).2
  = (sent s ++
     [ {| method := "POST"; uri := "/zones/" +:+ zoneID +:+ "/custom_hostnames";
          params := Some ch |};
       list_request zoneID 1 hostname ])%list.
Proof.
  intros s1.
  assert (Hs1 : sent s1 = (sent s ++
     [ {| method := "POST"; uri := "/zones/" +:+ zoneID +:+ "/custom_hostnames";
          params := Some ch |} ])%list).
  { subst s1. unfold CreateCustomHostname, mbind, M_bind, makeRequest. cbn zeta.
    destruct (transport api _ (world s)) as [[res [e|]] w]; [reflexivity|].
    destruct (json_Unmarshal res None) as [r [e|]]; reflexivity. }
  rewrite CustomHostnameIDByName_run.
  pose proof (FilterCustomHostnames_sent api zoneID 1 (by_hostname hostname) s1) as Hs.
  destruct (FilterCustomHostnames api zoneID 1 (by_hostname hostname) s1)
    as [[[customHostnames info] err] s2].
  cbn [snd] in Hs. rewrite Hs1, <- app_assoc in Hs.
  destruct err as [e|]; [exact Hs|].
  destruct (range_customHostnames hostname customHostnames); exact Hs.
Qed.

End MoreClientFacts.

(** X1 on the lookup of [abc123], which the service answers with the
    resource. *)
Lemma GetCustomHostname_outcomes_witness :
  let s := Demo.start [Demo.ok Demo.created] in
  let req := bodyless "GET" "/zones/z1/custom_hostnames/abc123" in
  transport Demo.api req (world s) = (Demo.ok Demo.created, []) /\
  GetCustomHostname Demo.api "z1" "abc123" s
  = ((Demo.host "abc123" "a.example.com", None), Demo.after req []).
Proof.
  intros s req. split; [reflexivity|].
  destruct (GetCustomHostname_outcomes Demo.api "z1" "abc123" s
              (list_byte_of_string Demo.created) None [] eq_refl)
    as (Hstate & _ & Hok & _).
  specialize (Hok eq_refl _ ltac:(vm_compute; reflexivity)).
  destruct (GetCustomHostname Demo.api "z1" "abc123" s) as [out st].
  simpl in Hstate, Hok. subst out st. reflexivity.
Defined.

(** X2 on a body that is not JSON. *)
Lemma GetCustomHostname_error_no_data_witness :
  let s := Demo.start [Demo.ok Demo.not_json] in
  exists s',
    GetCustomHostname Demo.api "z1" "abc123" s
    = ((CustomHostname_zero, DecodeError Demo.syntax_error), s').
Proof.
  intros s.
  destruct (GetCustomHostname Demo.api "z1" "abc123" s) as [[ch err] s'] eqn:Hrun.
  assert (Herr : err = DecodeError Demo.syntax_error).
  { apply (f_equal (fun r => r.1.2)) in Hrun. cbn [fst snd] in Hrun.
    rewrite <- Hrun. vm_compute. reflexivity. }
  subst err.
  rewrite (GetCustomHostname_error_no_data Demo.api "z1" "abc123" s ch _ s' Hrun).
  exists s'. reflexivity.
Defined.

(** X3 on a connection that is refused. *)
Lemma CreateCustomHostname_error_nil_witness :
  let s := Demo.start [] in
  exists s',
    CreateCustomHostname Demo.api "z1" (Demo.host "" "a.example.com") s
    = ((None, TransportError (errors.foreign "connection refused")), s').
Proof.
  intros s.
  destruct (CreateCustomHostname Demo.api "z1" (Demo.host "" "a.example.com") s)
    as [[response err] s'] eqn:Hrun.
  assert (Herr : err = TransportError (errors.foreign "connection refused")).
  { apply (f_equal (fun r => r.1.2)) in Hrun. cbn [fst snd] in Hrun.
    rewrite <- Hrun. vm_compute. reflexivity. }
  subst err.
  rewrite (CreateCustomHostname_error_nil Demo.api "z1" _ s response _ s' Hrun).
  exists s'. reflexivity.
Defined.

(** X6 on a connection that is refused, with the text the caller reads. *)
Lemma CustomHostnameIDByName_fetch_failure_witness :
  let s := Demo.start [] in
  exists e,
    (CustomHostnameIDByName Demo.api "z1" "a.example.com" s).1 = ("", Some e) /\
    errors.Error e
    = "failed to fetch CustomHostnameIDByName: Error from makeRequest: connection refused".
Proof.
  intros s.
  destruct (CustomHostnameIDByName_fetch_failure Demo.api "z1" "a.example.com" s
              [] ResultInfo_zero
              (errors.withMessage (errors.foreign "connection refused")
                 "Error from makeRequest")
              (Demo.after (list_request "z1" 1 "a.example.com") []))
    as (cause & Hcause & Hrun); [vm_compute; reflexivity|].
  injection Hcause as <-. rewrite Hrun. eexists. split; reflexivity.
Defined.

(** X7 on a first page of near matches. *)
Lemma CustomHostnameIDByName_error_empty_id_witness :
  let s := Demo.start [Demo.ok Demo.page_with_near_matches] in
  exists s',
    CustomHostnameIDByName Demo.api "z1" "a.example.com" s = (("", NotFound), s').
Proof.
  intros s.
  destruct (CustomHostnameIDByName Demo.api "z1" "a.example.com" s)
    as [[id err] s'] eqn:Hrun.
  assert (Herr : err = NotFound).
  { apply (f_equal (fun r => r.1.2)) in Hrun. cbn [fst snd] in Hrun.
    rewrite <- Hrun. vm_compute. reflexivity. }
  subst err.
  rewrite (CustomHostnameIDByName_error_empty_id Demo.api "z1" "a.example.com" s
             id _ s' Hrun).
  exists s'. reflexivity.
Defined.

(** X8 on a filter that also names an id. *)
Lemma FilterCustomHostnames_reads_Hostname_only_witness :
  let s := Demo.start [Demo.ok Demo.page_with_two_matches] in
  FilterCustomHostnames Demo.api "z1" 1 (Demo.host "id-3" "a.example.com") s
  = FilterCustomHostnames Demo.api "z1" 1 (by_hostname "a.example.com") s.
Proof.
  intros s. apply FilterCustomHostnames_reads_Hostname_only. reflexivity.
Defined.

(** X9 on two calls whose filters differ in the id only. *)
Lemma FilterCustomHostnames_request_injective_witness :
  let s := Demo.start [Demo.ok Demo.page_two] in
  sent (FilterCustomHostnames Demo.api "z1" 2 (Demo.host "id-3" "a.example.com") s).2
  = sent (FilterCustomHostnames Demo.api "z1" 2 (by_hostname "a.example.com") s).2 /\
  (2 = 2 /\ Hostname (Demo.host "id-3" "a.example.com")
            = Hostname (by_hostname (any:=Demo.any) "a.example.com")).
Proof.
  intros s.
  assert (E : sent (FilterCustomHostnames Demo.api "z1" 2
                      (Demo.host "id-3" "a.example.com") s).2
              = sent (FilterCustomHostnames Demo.api "z1" 2
                        (by_hostname "a.example.com") s).2)
    by (vm_compute; reflexivity).
  split; [exact E|].
  exact (FilterCustomHostnames_request_injective Demo.api "z1" 2 _ 2 _ s E).
Defined.

(** ** Facts about JSON bodies *)

Example Valid_examples :
  json.Valid (list_byte_of_string "[]") = true /\
  json.Valid (list_byte_of_string "null") = true /\
  json.Valid (list_byte_of_string " -12.5e+3 ") = true /\
  json.Valid (list_byte_of_string Demo.created) = true /\
  json.Valid (list_byte_of_string Demo.failure_envelope) = true.
Proof. repeat split; vm_compute; reflexivity. Qed.

Example not_Valid_examples :
  json.Valid (list_byte_of_string Demo.not_json) = false /\
  json.Valid (list_byte_of_string "") = false /\
  json.Valid (list_byte_of_string "[1,]") = false /\
  json.Valid (list_byte_of_string "01") = false /\
  json.Valid (list_byte_of_string "{} {}") = false /\
  json.Valid (list_byte_of_string "nul") = false.
Proof. repeat split; vm_compute; reflexivity. Qed.

(** Valid JSON starts, after its leading space, with the first byte of a
    value, so it has a kind. *)
Lemma scan_all_kind text : forall s s',
  json.step s = json.stateBeginValue -> json.endTop s = false ->
  json.scan_all s text = Some s' -> json.eof s' = true ->
  is_Some (json.kind_of text).
Proof.
  induction text as [|c text IH]; intros s s' Hstep Htop Hscan Heof.
  - injection Hscan as <-. unfold json.eof, json.scan_step in Heof.
    rewrite Htop, Hstep in Heof. cbn in Heof. congruence.
  - cbn [json.scan_all] in Hscan. unfold json.scan_step in Hscan.
    rewrite Hstep in Hscan.
    destruct (json.isSpace c) eqn:Hspace.
    + unfold json.do_stateBeginValue in Hscan. rewrite Hspace in Hscan.
      cbn [json.kind_of]. rewrite Hspace. now apply (IH s s').
    + clear IH. revert Hscan Hspace.
      destruct c as [[] [] [] [] [] [] [] []]; cbn;
        intros; (discriminate || eauto).
Qed.

Lemma Valid_kind data :
  json.Valid data = true -> is_Some (json.kind_of (string_of_list_byte data)).
Proof.
  unfold json.Valid.
  destruct (json.scan_all json.reset (string_of_list_byte data)) as [s'|] eqn:Hscan;
    [|discriminate].
  intros Heof. now apply (scan_all_kind _ json.reset s').
Qed.

(** ** Deletion and creation, by the body of the answer *)

Section DecodedBodies.

Context {any Response World : Type}.
Context `{!Package Response}.
Variable object : list Byte.byte -> CustomHostnameResponse any Response ->
                  CustomHostnameResponse any Response * error.
Variable syntax_error : list Byte.byte -> errors.value.
Variable api : API any World.

Local Abbreviation decoder := (Unmarshal_CustomHostnameResponse object syntax_error).

(** What the decoder answers at a [nil] pointer, by the body. *)
Lemma decoder_at_nil res :
  json_Unmarshal (Unmarshaler := decoder) res None =
  if negb (json.Valid res) then (None, Some (syntax_error res))
  else match json.kind_of (string_of_list_byte res) with
       | None => (None, Some (syntax_error res))
       | Some json.Null => (None, None)
       | Some json.Object =>
           let '(v, err) := object res CustomHostnameResponse_zero in (Some v, err)
       | Some k => (Some CustomHostnameResponse_zero, Some (wrong_kind k))
       end.
Proof.
  unfold json_Unmarshal, Unmarshal_CustomHostnameResponse, Unmarshal_pointer, wrong_kind.
  destruct (negb (json.Valid res)); [reflexivity|].
  destruct (json.kind_of (string_of_list_byte res)) as [[]|]; reflexivity.
Qed.

(** C6, as the code has it.  When the transport fails,
    [DeleteCustomHostname] returns a [TransportError] around the failure.
    When it succeeds, the outcome goes by what [json.Unmarshal] makes of
    the body at the response type: [nil] for the JSON [null] and for an
    object whose fields it accepts, whatever was decoded; a [DecodeError]
    for bytes that are not JSON, for JSON of another kind (an array, a
    string, a number, a boolean) and for an object with a field it
    rejects.  These are all the bodies there are. *)
Theorem DeleteCustomHostname_by_body zoneID customHostnameID s res err w :
  transport api
    (bodyless "DELETE" ("/zones/" +:+ zoneID +:+ "/custom_hostnames/" +:+ customHostnameID))
    (world s) = ((res, err), w) ->
  let out :=
    (DeleteCustomHostname (Unmarshaler0 := decoder) api zoneID customHostnameID s).1 in
  let top := json.kind_of (string_of_list_byte res) in
  (forall e, err = Some e -> out = TransportError e) /\
  (err = None -> json.Valid res = false -> out = DecodeError (syntax_error res)) /\
  (err = None -> json.Valid res = true -> top = Some json.Null -> out = None) /\
  (err = None -> json.Valid res = true -> top = Some json.Object ->
     forall response, object res CustomHostnameResponse_zero = (response, None) ->
     out = None) /\
  (err = None -> json.Valid res = true -> top = Some json.Object ->
     forall response e, object res CustomHostnameResponse_zero = (response, Some e) ->
     out = DecodeError e) /\
  (err = None -> json.Valid res = true ->
     forall k, top = Some k -> k <> json.Null -> k <> json.Object ->
     out = DecodeError (wrong_kind k)) /\
  (json.Valid res = true -> is_Some top).
Proof.
  intros Ht out top. subst out top.
  destruct (DeleteCustomHostname_outcomes (Unmarshaler0 := decoder)
              api zoneID customHostnameID s res err w Ht) as (Hfail & Hok & Hbad).
  rewrite decoder_at_nil in Hok, Hbad.
  split; [exact Hfail|].
  split. { intros -> Hv. rewrite Hv in Hbad. now apply (Hbad eq_refl None). }
  split. { intros -> Hv Hk. rewrite Hv, Hk in Hok. now apply (Hok eq_refl None). }
  split. { intros -> Hv Hk response Ho. rewrite Hv, Hk, Ho in Hok.
           now apply (Hok eq_refl (Some response)). }
  split. { intros -> Hv Hk response e Ho. rewrite Hv, Hk, Ho in Hbad.
           now apply (Hbad eq_refl (Some response)). }
  split; [|apply Valid_kind].
  intros -> Hv k Hk Hnull Hobject. rewrite Hv, Hk in Hbad.
  destruct k; try congruence;
    now apply (Hbad eq_refl (Some CustomHostnameResponse_zero)).
Qed.

(** C7, as the code has it.  [CreateCustomHostname] sends one request, the
    [POST] of the collection path of the zone with the hostname as its
    body.  When the transport fails it returns [nil] and a
    [TransportError] around the failure.  When it succeeds, the outcome
    goes by what [json.Unmarshal] makes of the body at the response type:
    for an object whose fields it accepts, the envelope it decoded, not
    [nil], with the result and the id as decoded, and no error; for the
    JSON [null], [nil] and no error; [nil] and a [DecodeError] for bytes
    that are not JSON, for JSON of another kind and for an object with a
    field it rejects.  These are all the bodies there are. *)
Theorem CreateCustomHostname_by_body zoneID ch s res err w :
  let req := {| method := "POST";
                uri := "/zones/" +:+ zoneID +:+ "/custom_hostnames";
                params := Some ch |} in
  transport api req (world s) = ((res, err), w) ->
  let run := CreateCustomHostname (Unmarshaler0 := decoder) api zoneID ch s in
  let out := run.1 in
  let top := json.kind_of (string_of_list_byte res) in
  run.2 = {| world := w; sent := (sent s ++ [req])%list |} /\
  (forall e, err = Some e -> out = (None, TransportError e)) /\
  (err = None -> json.Valid res = false ->
     out = (None, DecodeError (syntax_error res))) /\
  (err = None -> json.Valid res = true -> top = Some json.Null ->
     out = (None, None)) /\
  (err = None -> json.Valid res = true -> top = Some json.Object ->
     forall response, object res CustomHostnameResponse_zero = (response, None) ->
     out = (Some response, None)) /\
  (err = None -> json.Valid res = true -> top = Some json.Object ->
     forall response e, object res CustomHostnameResponse_zero = (response, Some e) ->
     out = (None, DecodeError e)) /\
  (err = None -> json.Valid res = true ->
     forall k, top = Some k -> k <> json.Null -> k <> json.Object ->
     out = (None, DecodeError (wrong_kind k))) /\
  (json.Valid res = true -> is_Some top).
Proof.
  intros req Ht run out top. subst req run out top.
  destruct (CreateCustomHostname_outcomes (Unmarshaler0 := decoder)
              api zoneID ch s res err w Ht) as (Hstate & Hfail & Hok & Hbad).
  rewrite decoder_at_nil in Hok, Hbad.
  split; [exact Hstate|]. split; [exact Hfail|].
  split. { intros -> Hv. rewrite Hv in Hbad. now apply (Hbad eq_refl None). }
  split. { intros -> Hv Hk. rewrite Hv, Hk in Hok. now apply (Hok eq_refl None). }
  split. { intros -> Hv Hk response Ho. rewrite Hv, Hk, Ho in Hok.
           now apply (Hok eq_refl (Some response)). }
  split. { intros -> Hv Hk response e Ho. rewrite Hv, Hk, Ho in Hbad.
           now apply (Hbad eq_refl (Some response)). }
  split; [|apply Valid_kind].
  intros -> Hv k Hk Hnull Hobject. rewrite Hv, Hk in Hbad.
  destruct k; try congruence;
    now apply (Hbad eq_refl (Some CustomHostnameResponse_zero)).
Qed.

End DecodedBodies.

(** C6 on an answer that is a JSON object and reports a failure of the
    service: the deletion returns [nil]. *)
Lemma DeleteCustomHostname_by_body_witness :
  let body := list_byte_of_string Demo.failure_envelope in
  let s := Wire.answers Demo.failure_envelope in
  json.Valid body = true /\
  json.kind_of Demo.failure_envelope = Some json.Object /\
  (DeleteCustomHostname (Unmarshaler0 := Wire.decoder) Demo.api "z1" "abc123" s).1
  = None.
Proof.
  intros body s.
  assert (Hv : json.Valid body = true) by (vm_compute; reflexivity).
  assert (Hk : json.kind_of (string_of_list_byte body) = Some json.Object)
    by (vm_compute; reflexivity).
  split; [exact Hv|]. split; [vm_compute; reflexivity|].
  destruct (DeleteCustomHostname_by_body Wire.object Wire.syntax_error Demo.api
              "z1" "abc123" s body None [] eq_refl)
    as (_ & _ & _ & Hobject & _).
  apply (Hobject eq_refl Hv Hk {| Result := CustomHostname_zero; Result_Response := false |}).
  vm_compute. reflexivity.
Defined.

(** C6 as the claim has it fails: the body [[]] is JSON, and on it the
    deletion returns a [DecodeError], not [nil].  The last line is the
    text the caller reads. *)
Lemma DeleteCustomHostname_rejects_JSON_array :
  let body := list_byte_of_string "[]" in
  let out :=
    (DeleteCustomHostname (Unmarshaler0 := Wire.decoder) Demo.api "z1" "abc123"
       (Wire.answers "[]")).1 in
  json.Valid body = true /\
  out = DecodeError (wrong_kind json.Array) /\
  out <> None /\
  errors.Error <$> out
  = Some "Error unmarshalling JSON: json: cannot unmarshal array into Go value of type cloudflare.CustomHostnameResponse".
Proof.
  intros body out. split; [vm_compute; reflexivity|].
  split; [vm_compute; reflexivity|].
  split; [vm_compute; discriminate | vm_compute; reflexivity].
Qed.

(** C7 on the creation of [a.example.com], which the service answers with
    the object of the resource under the id [abc123]: the envelope comes
    back with that id. *)
Lemma CreateCustomHostname_by_body_witness :
  let body := list_byte_of_string Demo.created in
  let s := Wire.answers Demo.created in
  let req := {| method := "POST"; uri := "/zones/z1/custom_hostnames";
                params := Some (Demo.host "" "a.example.com") |} in
  json.Valid body = true /\
  json.kind_of Demo.created = Some json.Object /\
  (CreateCustomHostname (Unmarshaler0 := Wire.decoder) Demo.api "z1"
     (Demo.host "" "a.example.com") s).1
  = (Some {| Result := Demo.host "abc123" "a.example.com"; Result_Response := true |},
     None).
Proof.
  intros body s req.
  assert (Hv : json.Valid body = true) by (vm_compute; reflexivity).
  assert (Hk : json.kind_of (string_of_list_byte body) = Some json.Object)
    by (vm_compute; reflexivity).
  split; [exact Hv|]. split; [vm_compute; reflexivity|].
  destruct (CreateCustomHostname_by_body Wire.object Wire.syntax_error Demo.api
              "z1" (Demo.host "" "a.example.com") s body None [] eq_refl)
    as (_ & _ & _ & _ & Hobject & _).
  apply (Hobject eq_refl Hv Hk). vm_compute. reflexivity.
Defined.

(** C7 as the claim has it fails: the body [null] is JSON and is no
    envelope, and on it the creation returns neither an envelope with an
    id nor a [DecodeError], but [nil] and no error. *)
Lemma CreateCustomHostname_null_body :
  let body := list_byte_of_string "null" in
  json.Valid body = true /\
  (CreateCustomHostname (Unmarshaler0 := Wire.decoder) Demo.api "z1"
     (Demo.host "" "a.example.com") (Wire.answers "null")).1
  = (None, None).
Proof.
  intros body. split; vm_compute; reflexivity.
Qed.
